(** * ipdb: session lifecycle and script runner

    A shallow embedding of [ipdb/__main__.py]: the exception-hook guard
    [wrap_sys_excepthook], the debugger factory [_init_pdb], the entry
    points ([set_trace], [post_mortem], [pm], [run], [runcall], [runeval],
    [launch_ipdb_on_exception]) and the command-line runner [main].

    Python's process-wide state is an explicit [World]; a function with
    effects is a computation [M A] that threads the world and ends in a
    value, in a raised exception, or is still running because the debugged
    script has not answered yet.

    The debugger engine (IPython's Pdb and its shell) and the debugged
    script are outside the module.  A call into the engine is recorded in
    the log with the hook in force; its constructor refuses a context that
    is not positive; [restore_sys_module_state] puts back the hook the
    shell saved; an interactive session is taken to end with the user
    resuming; and the script is taken to leave [sys.argv] and
    [sys.excepthook] as the runner set them. *)

From Stdlib Require Import String Ascii List ZArith Bool Lia DecimalString.
Import ListNotations.
Open Scope string_scope.
Open Scope list_scope.

(** ** Exceptions *)

(** The exception classes the module tells apart.  [Restart] is
    [pdb.Restart], a subclass of [Exception]; [SystemExit] carries the
    argument given to [sys.exit]; [KeyboardInterrupt] and [GeneratorExit]
    derive from [BaseException] only; [OtherException] stands for any other
    subclass of [Exception] (ValueError, ZeroDivisionError, ...). *)
Inductive ExcClass : Type :=
| Restart
| SystemExit (code : option Z)
| KeyboardInterrupt
| GeneratorExit
| BdbQuit
| TypeError
| IndexError
| AttributeError
| GetoptError
| OtherException (name : string).

Definition Traceback := nat.
Definition Frame := nat.

Record Exn : Type := mkExn {
  exc_class : ExcClass;
  exc_repr : string;      (* m.__repr__() *)
  exc_str : string;       (* what print(m) writes *)
  exc_tb : Traceback      (* sys.exc_info()[2] while it is handled *)
}.

(** [isinstance(e, Exception)] *)
Definition is_Exception (c : ExcClass) : bool :=
  match c with
  | SystemExit _ | KeyboardInterrupt | GeneratorExit => false
  | _ => true
  end.

Definition is_Restart (c : ExcClass) : bool :=
  match c with Restart => true | _ => false end.

Definition is_SystemExit (c : ExcClass) : bool :=
  match c with SystemExit _ => true | _ => false end.

Definition is_TypeError (c : ExcClass) : bool :=
  match c with TypeError => true | _ => false end.

(** ** Hooks, events and the world *)

(** A value of [sys.excepthook]: IPython's [BdbQuit_excepthook] (the
    sentinel the guard installs) or any other callable, compared by
    identity. *)
Inductive Hook : Type :=
| BdbQuit_excepthook
| OtherHook (id : nat).

Definition Hook_eqb (a b : Hook) : bool :=
  match a, b with
  | BdbQuit_excepthook, BdbQuit_excepthook => true
  | OtherHook i, OtherHook j => Nat.eqb i j
  | _, _ => false
  end.

Inductive Stream : Type := stdout | stderr.

(** Calls into the debugger engine (IPython's Pdb), which is not part of
    the module. *)
Inductive EngineCall : Type :=
| New (context : option Z)            (* debugger_cls(def_colors[, context=...]) *)
| Reset                               (* p.reset() *)
| Interaction (tb : Traceback)        (* p.interaction(None, tb) *)
| SetTrace (frame : Frame)            (* p.set_trace(frame) *)
| RestoreSysModuleState               (* p.shell.restore_sys_module_state() *)
| Run (statement : string)            (* p.run(statement, globals, locals) *)
| Runcall                             (* p.runcall(func, ...) *)
| Runeval (expression : string)       (* p.runeval(expression, globals, locals) *)
| Runscript (filename : string).      (* p._runscript(filename) *)

(** What the process does that can be seen from outside.  An engine call
    is recorded with the value [sys.excepthook] has when it is made. *)
Inductive Event : Type :=
| Write (file : Stream) (text : string)
| PrintExc (e : Exn)                  (* traceback.print_exc() *)
| Engine (hook_in_force : Hook) (call : EngineCall).

Record World : Type := mkWorld {
  sys_excepthook : Hook;
  excepthook_ori : option Hook;       (* BdbQuit_excepthook.excepthook_ori; None: not set *)
  sys_argv : list string;
  sys_path : list string;
  exc_info : option Exn;              (* the exception being handled, if any *)
  last_traceback : option Traceback;  (* sys.last_traceback; None: attribute missing *)
  caller_frame : Frame;               (* sys._getframe().f_back in the entry point *)
  files : list string;                (* the paths for which os.path.exists holds *)
  log : list Event
}.

Definition set_hook (h : Hook) (ori : option Hook) (w : World) : World :=
  mkWorld h ori (sys_argv w) (sys_path w) (exc_info w) (last_traceback w)
          (caller_frame w) (files w) (log w).

Definition set_argv (a : list string) (w : World) : World :=
  mkWorld (sys_excepthook w) (excepthook_ori w) a (sys_path w) (exc_info w)
          (last_traceback w) (caller_frame w) (files w) (log w).

Definition set_path (p : list string) (w : World) : World :=
  mkWorld (sys_excepthook w) (excepthook_ori w) (sys_argv w) p (exc_info w)
          (last_traceback w) (caller_frame w) (files w) (log w).

Definition set_exc_info (e : option Exn) (w : World) : World :=
  mkWorld (sys_excepthook w) (excepthook_ori w) (sys_argv w) (sys_path w) e
          (last_traceback w) (caller_frame w) (files w) (log w).

Definition add_log (evs : list Event) (w : World) : World :=
  mkWorld (sys_excepthook w) (excepthook_ori w) (sys_argv w) (sys_path w)
          (exc_info w) (last_traceback w) (caller_frame w) (files w)
          (log w ++ evs).

(** ** Computations *)

Inductive Res (A : Type) : Type :=
| Ret (a : A)          (* the call returned [a] *)
| Raise (e : Exn)      (* the call raised [e] *)
| Running.             (* the call has not come back: the script is still running *)
Arguments Ret {A} a.
Arguments Raise {A} e.
Arguments Running {A}.

Definition M (A : Type) : Type := World -> World * Res A.

Definition ret {A} (a : A) : M A := fun w => (w, Ret a).

Definition raise {A} (e : Exn) : M A := fun w => (w, Raise e).

Definition bind {A B} (m : M A) (k : A -> M B) : M B :=
  fun w =>
    match m w with
    | (w', Ret a) => k a w'
    | (w', Raise e) => (w', Raise e)
    | (w', Running) => (w', Running)
    end.

Declare Scope py_scope.
Delimit Scope py_scope with py.
Notation "x <- m ;; k" := (bind m (fun x => k))
  (at level 61, m at next level, right associativity) : py_scope.
Notation "m ;; k" := (bind m (fun _ => k))
  (at level 61, right associativity) : py_scope.
Open Scope py_scope.

Definition gets {A} (f : World -> A) : M A := fun w => (w, Ret (f w)).

Definition modify (f : World -> World) : M unit := fun w => (f w, Ret tt).

(** [try: body  except <classes for which handles holds>: handler].  While
    the handler runs, [sys.exc_info()] is the caught exception; the value
    it had before is back when the handler is left. *)
Definition try_except {A} (body : M A) (handles : ExcClass -> bool)
    (handler : Exn -> M A) : M A :=
  fun w =>
    match body w with
    | (w1, Raise e) =>
        if handles (exc_class e) then
          let '(w2, r) := handler e (set_exc_info (Some e) w1) in
          (set_exc_info (exc_info w1) w2, r)
        else (w1, Raise e)
    | other => other
    end.

(** The name of the class, as repr shows it. *)
Definition class_name (c : ExcClass) : string :=
  match c with
  | Restart => "Restart"
  | SystemExit _ => "SystemExit"
  | KeyboardInterrupt => "KeyboardInterrupt"
  | GeneratorExit => "GeneratorExit"
  | BdbQuit => "BdbQuit"
  | TypeError => "TypeError"
  | IndexError => "IndexError"
  | AttributeError => "AttributeError"
  | GetoptError => "GetoptError"
  | OtherException name => name
  end.

Fixpoint contains (c : ascii) (s : string) : bool :=
  match s with
  | EmptyString => false
  | String x r => Ascii.eqb x c || contains c r
  end.

Definition nl : string := String (ascii_of_nat 10) "".
Definition tab : string := String (ascii_of_nat 9) "".
Definition dq : string := String (ascii_of_nat 34) "".
Definition sq : string := "'".

Definition hex_digit (n : nat) : ascii :=
  if (n <? 10)%nat then ascii_of_nat (48 + n) else ascii_of_nat (87 + n).

(** One character of a str inside its repr: the quote in use and the
    backslash get a backslash, tab, newline and carriage return their
    letter, the other control characters two hexadecimal digits.  A byte
    above 127 is part of a printable character and is kept. *)
Definition repr_char (quote c : ascii) : string :=
  let n := nat_of_ascii c in
  let backslash := ascii_of_nat 92 in
  if Ascii.eqb c quote || Ascii.eqb c backslash then String backslash (String c "")
  else if (n =? 9)%nat then String backslash "t"
  else if (n =? 10)%nat then String backslash "n"
  else if (n =? 13)%nat then String backslash "r"
  else if (n <? 32)%nat || (n =? 127)%nat then
    String backslash (String "x" (String (hex_digit (n / 16))
                                    (String (hex_digit (n mod 16)) "")))
  else String c "".

Fixpoint repr_chars (quote : ascii) (s : string) : string :=
  match s with
  | EmptyString => EmptyString
  | String c r => (repr_char quote c ++ repr_chars quote r)%string
  end.

(** repr of a str: in single quotes, unless it has a single quote and no
    double quote; the characters escaped as [repr_char] says. *)
Definition repr_str (s : string) : string :=
  let quote :=
    if contains (ascii_of_nat 39) s && negb (contains (ascii_of_nat 34) s)
    then ascii_of_nat 34 else ascii_of_nat 39 in
  String quote (repr_chars quote s ++ String quote "")%string.

(** [print(arg, ..., end=end_, file=file)] *)
Definition print_to (file : Stream) (args : list string) (end_ : string) : M unit :=
  modify (add_log [Write file (String.concat " " args ++ end_)%string]).

Definition print (args : list string) : M unit := print_to stdout args nl.

(** A call into the engine that comes back at once and by itself changes
    nothing the module reads.  For [interaction] this is the engine's
    contract for a session the user ends by resuming: the statements about
    sessions are about sessions that end. *)
Definition engine (c : EngineCall) : M unit :=
  fun w => (add_log [Engine (sys_excepthook w) c] w, Ret tt).

(** An exception raised with the given arguments by the module or by a
    library function: its repr is the class name and the reprs of the
    arguments, its str is the first argument (the message).  The traceback
    handle is of no matter for these. *)
Definition new_exn (c : ExcClass) (args : list string) : Exn :=
  mkExn c
        (class_name c ++ "(" ++ String.concat ", " (map repr_str args) ++ ")")%string
        (hd "" args) 0.

(** ** The exception-hook guard *)

Definition wrap_sys_excepthook : M unit :=
  fun w =>
    if negb (Hook_eqb (sys_excepthook w) BdbQuit_excepthook) then
      (set_hook BdbQuit_excepthook (Some (sys_excepthook w)) w, Ret tt)
    else (w, Ret tt).

(** Where an uncaught exception ends up. *)
Inductive Dispatch : Type :=
| Suppressed               (* the sentinel swallows it *)
| HandledBy (h : Hook)     (* it reaches a hook that is not the sentinel *)
| NoOriginal               (* the sentinel has no excepthook_ori to call *)
| Cycle.                   (* the sentinel's original is the sentinel *)

(** Modelled from the spec: the body of IPython's [BdbQuit_excepthook],
    which is not part of the module.  By its contract a user-requested
    debugger exit (BdbQuit) is suppressed and anything else is delegated to
    the recorded original hook.  [dispatch_uncaught] is what the runtime
    does with an uncaught exception of class [c] under that contract. *)
Definition dispatch_uncaught (w : World) (c : ExcClass) : Dispatch :=
  match sys_excepthook w with
  | OtherHook i => HandledBy (OtherHook i)
  | BdbQuit_excepthook =>
      match c with
      | BdbQuit => Suppressed
      | _ =>
          match excepthook_ori w with
          | None => NoOriginal
          | Some BdbQuit_excepthook => Cycle
          | Some (OtherHook i) => HandledBy (OtherHook i)
          end
      end
  end.

(** The number of sentinel layers an uncaught exception goes through
    before it reaches a hook that is not the sentinel; [None] when the
    layers form a cycle. *)
Definition interception_layers (w : World) : option nat :=
  match sys_excepthook w with
  | OtherHook _ => Some 0
  | BdbQuit_excepthook =>
      match excepthook_ori w with
      | Some BdbQuit_excepthook => None
      | _ => Some 1
      end
  end.

(** [n] calls of the guard in a row. *)
Fixpoint repeat_wrap (n : nat) : M unit :=
  match n with
  | O => ret tt
  | S k => wrap_sys_excepthook ;; repeat_wrap k
  end.

(** ** Library functions the runner uses *)

(** Python's [getopt.getopt] (classic version, without optional
    arguments), as [main] calls it.  [inl (msg, opt)] is
    [GetoptError(msg, opt)]. *)
Module Getopt.

Definition Opts := list (string * string).
Definition Error := (string * string)%type.      (* GetoptError(msg, opt) *)
Definition Result := (Error + Opts * list string)%type.

Definition startswith (s p : string) : bool := String.prefix p s.

Definition drop (n : nat) (s : string) : string :=
  substring n (String.length s - n) s.

Fixpoint endswith_eq (s : string) : bool :=
  match s with
  | EmptyString => false
  | String c EmptyString => Ascii.eqb c "="
  | String _ r => endswith_eq r
  end.

Fixpoint strip_last (s : string) : string :=
  match s with
  | EmptyString => EmptyString
  | String _ EmptyString => EmptyString
  | String c r => String c (strip_last r)
  end.

Definition mem (s : string) (l : list string) : bool :=
  existsb (String.eqb s) l.

(** opt, optarg = opt[:i], opt[i+1:]  at the first '=' *)
Fixpoint split_eq (s : string) : string * option string :=
  match s with
  | EmptyString => (EmptyString, None)
  | String c r =>
      if Ascii.eqb c "=" then (EmptyString, Some r)
      else let '(a, b) := split_eq r in (String c a, b)
  end.

(** [None]: option not recognized *)
Fixpoint short_has_arg (opt : ascii) (shortopts : string) : option bool :=
  match shortopts with
  | EmptyString => None
  | String c rest =>
      if Ascii.eqb opt c && negb (Ascii.eqb c ":")
      then Some (startswith rest ":")
      else short_has_arg opt rest
  end.

Fixpoint do_shorts (opts : Opts) (optstring shortopts : string)
    (args : list string) : Result :=
  match optstring with
  | EmptyString => inr (opts, args)
  | String opt optstring =>
      let name := String opt EmptyString in
      match short_has_arg opt shortopts with
      | None => inl (("option -" ++ name ++ " not recognized")%string, name)
      | Some true =>
          match optstring, args with
          | EmptyString, [] => inl (("option -" ++ name ++ " requires argument")%string, name)
          | EmptyString, a :: args => inr (opts ++ [("-" ++ name, a)%string], args)
          | _, _ => inr (opts ++ [("-" ++ name, optstring)%string], args)
          end
      | Some false =>
          do_shorts (opts ++ [("-" ++ name, "")%string]) optstring shortopts args
      end
  end.

Definition long_has_args (opt : string) (longopts : list string)
    : Error + bool * string :=
  let possibilities := filter (fun o => startswith o opt) longopts in
  match possibilities with
  | [] => inl (("option --" ++ opt ++ " not recognized")%string, opt)
  | unique_match :: others =>
      if mem opt possibilities then inr (false, opt)
      else if mem (opt ++ "=")%string possibilities then inr (true, opt)
      else
        match others with
        | _ :: _ => inl (("option --" ++ opt ++ " not a unique prefix")%string, opt)
        | [] =>
            if endswith_eq unique_match then inr (true, strip_last unique_match)
            else inr (false, unique_match)
        end
  end.

Definition do_longs (opts : Opts) (opt : string) (longopts args : list string)
    : Result :=
  let '(opt, optarg) := split_eq opt in
  match long_has_args opt longopts with
  | inl msg => inl msg
  | inr (true, opt) =>
      match optarg, args with
      | None, [] => inl (("option --" ++ opt ++ " requires argument")%string, opt)
      | None, a :: args => inr (opts ++ [("--" ++ opt, a)%string], args)
      | Some v, _ => inr (opts ++ [("--" ++ opt, v)%string], args)
      end
  | inr (false, opt) =>
      match optarg with
      | Some _ => inl (("option --" ++ opt ++ " must not have an argument")%string, opt)
      | None => inr (opts ++ [("--" ++ opt, "")%string], args)
      end
  end.

(** The [while] loop of [getopt]; every turn takes at least one argument
    away, so [length args] turns are enough. *)
Fixpoint getopt_loop (turns : nat) (opts : Opts) (args : list string)
    (shortopts : string) (longopts : list string) : option Result :=
  match args with
  | [] => Some (inr (opts, args))
  | a :: rest =>
      if startswith a "-" && negb (String.eqb a "-") then
        if String.eqb a "--" then Some (inr (opts, rest))
        else
          match turns with
          | O => None
          | S turns =>
              match (if startswith a "--"
                     then do_longs opts (drop 2 a) longopts rest
                     else do_shorts opts (drop 1 a) shortopts rest) with
              | inl msg => Some (inl msg)
              | inr (opts, args) => getopt_loop turns opts args shortopts longopts
              end
          end
      else Some (inr (opts, args))
  end.

Definition getopt (args : list string) (shortopts : string)
    (longopts : list string) : Result :=
  match getopt_loop (List.length args) [] args shortopts longopts with
  | Some r => r
  | None => inr ([], args)
  end.

End Getopt.

(** [os.path.dirname] of posixpath. *)
Module Posixpath.

(** p[:i] for i = p.rfind('/') + 1; [None] when p has no '/' *)
Fixpoint head_to_last_sep (p : string) : option string :=
  match p with
  | EmptyString => None
  | String c r =>
      match head_to_last_sep r with
      | Some h => Some (String c h)
      | None => if Ascii.eqb c "/" then Some (String c EmptyString) else None
      end
  end.

Fixpoint all_sep (s : string) : bool :=
  match s with
  | EmptyString => true
  | String c r => Ascii.eqb c "/" && all_sep r
  end.

Fixpoint rstrip_sep (s : string) : string :=
  match s with
  | EmptyString => EmptyString
  | String c r =>
      match rstrip_sep r with
      | EmptyString => if Ascii.eqb c "/" then EmptyString else String c EmptyString
      | r' => String c r'
      end
  end.

Definition dirname (p : string) : string :=
  let head := match head_to_last_sep p with Some h => h | None => EmptyString end in
  if negb (String.eqb head "") && negb (all_sep head) then rstrip_sep head
  else head.

End Posixpath.

(** ** What the script runner needs *)

Definition _usage : string :=
  ("usage: python -m ipdb [-c command] ... pyfile [arg] ..." ++ nl ++
   nl ++
   "Debug the Python program given by pyfile." ++ nl ++
   nl ++
   "Initial commands are read from .pdbrc files in your home directory" ++ nl ++
   "and in the current directory, if they exist.  Commands supplied with" ++ nl ++
   "-c are executed after commands from .pdbrc files." ++ nl ++
   nl ++
   "To let the script run until an exception occurs, use " ++ dq ++ "-c continue" ++ dq ++ "." ++ nl ++
   "To let the script run up to a given line X in the debugged file, use" ++ nl ++
   dq ++ "-c 'until X'" ++ dq ++ ".")%string.

(** [str(n)] for an int. *)
Definition show_Z (n : Z) : string := NilZero.string_of_int (Z.to_int n).

(** [SystemExit(code)], and [sys.exit(code)] that raises it. *)
Definition system_exit (code : option Z) : Exn :=
  match code with
  | None => mkExn (SystemExit None) "SystemExit()" "" 0
  | Some n =>
      mkExn (SystemExit code) ("SystemExit(" ++ show_Z n ++ ")")%string (show_Z n) 0
  end.

Definition sys_exit {A} (code : option Z) : M A := raise (system_exit code).

(** The status the process ends with when [main] is the whole program;
    [None] while it is still running.  An exception other than SystemExit
    ends the process with status 1. *)
Definition exit_status (r : Res unit) : option Z :=
  match r with
  | Ret _ => Some 0%Z
  | Raise e =>
      match exc_class e with
      | SystemExit None => Some 0%Z
      | SystemExit (Some n) => Some n
      | _ => Some 1%Z
      end
  | Running => None
  end.

(** What one execution of the script under the debugger comes to. *)
Inductive ScriptRun : Type :=
| Completed (user_requested_quit : bool)   (* _runscript returned *)
| Raised (e : Exn).                        (* _runscript raised e *)

Inductive LoopCtl : Type :=
| Break         (* the while loop is left: the runner has finished *)
| Continue.     (* the while loop takes another turn *)

Definition path_exists (p : string) : M bool :=
  gets (fun w => existsb (String.eqb p) (files w)).

(** [sys.path[0] = d] *)
Definition set_sys_path_0 (d : string) : M unit :=
  fun w =>
    match sys_path w with
    | [] => (w, Raise (new_exn IndexError ["list assignment index out of range"]))
    | _ :: rest => (set_path (d :: rest) w, Ret tt)
    end.

(** [traceback.print_exc()] *)
Definition traceback_print_exc : M unit :=
  fun w =>
    match exc_info w with
    | Some e => (add_log [PrintExc e] w, Ret tt)
    | None => (add_log [Write stderr ("NoneType: None" ++ nl)%string] w, Ret tt)
    end.

Definition getopt (args : list string) (shortopts : string)
    (longopts : list string) : M (Getopt.Opts * list string) :=
  match Getopt.getopt args shortopts longopts with
  | inl (msg, opt) => raise (new_exn GetoptError [msg; opt])
  | inr r => ret r
  end.

(** The [for opt, optarg in opts] loop of [main]. *)
Fixpoint scan_opts (opts : Getopt.Opts) (commands : list string)
    : M (list string) :=
  match opts with
  | [] => ret commands
  | (opt, optarg) :: opts =>
      if Getopt.mem opt ["-h"; "--help"] then
        print [_usage] ;;
        sys_exit None
      else if Getopt.mem opt ["-c"; "--command"] then
        scan_opts opts (commands ++ [optarg])
      else scan_opts opts commands
  end.

(** A post-mortem session is a call of the engine's [interaction]. *)
Definition is_interaction (ev : Event) : bool :=
  match ev with
  | Engine _ (Interaction _) => true
  | _ => false
  end.

Definition sessions (evs : list Event) : nat :=
  List.length (filter is_interaction evs).

(** The texts written to a stream, in order. *)
Fixpoint written (file : Stream) (evs : list Event) : list string :=
  match evs with
  | [] => []
  | Write f text :: evs =>
      match f, file with
      | stdout, stdout | stderr, stderr => text :: written file evs
      | _, _ => written file evs
      end
  | _ :: evs => written file evs
  end.

(** ** The debugger factory and the entry points *)

(** The attributes of a debugger instance the module reads or writes. *)
Record Pdb : Type := mkPdb {
  colors : string;
  context_lines : option Z;     (* None: built by the engine without context *)
  rcLines : list string;
  has_shell : bool              (* hasattr(p, 'shell') *)
}.

Definition Value := string.

(** ** Concrete processes and exceptions, for the examples *)

(** A process as [python -m ipdb -c continue dir/s.py a] finds it: the
    interpreter's own hook is active, no exception is being handled and
    the module search path starts with ipdb's directory. *)
Definition fresh : World :=
  mkWorld (OtherHook 0) None
          ["/site/ipdb/__main__.py"; "-c"; "continue"; "dir/s.py"; "a"]
          ["/site/ipdb"; "/usr/lib/python3"]
          None None 7 ["dir/s.py"] [].

Definition with_argv (argv : list string) : World := set_argv argv fresh.

Definition exit3 : Exn := mkExn (SystemExit (Some 3%Z)) "SystemExit(3)" "3" 11.

Definition zero_division : Exn :=
  mkExn (OtherException "ZeroDivisionError")
        "ZeroDivisionError('division by zero')" "division by zero" 12.

Definition value_error_x : Exn :=
  mkExn (OtherException "ValueError") "ValueError('x')" "x" 13.

Definition keyboard_interrupt : Exn :=
  mkExn KeyboardInterrupt "KeyboardInterrupt()" "" 14.

Definition alias_line : string := ("alias ll list" ++ nl)%string.

(** The engine of the examples takes [context], has read one line from a
    .pdbrc file, and its instances have a shell; the shell is configured
    with one start-up line. *)
Definition demo_exec_lines : list string := ["import os"].
Definition demo_pdbrc : list string := [alias_line].

Definition same_lines (a b : list string) : bool :=
  if list_eq_dec string_dec a b then true else false.

Definition pdb0 : Pdb := mkPdb "Linux" (Some 3%Z) [("import os" ++ nl)%string] true.

(** The number of times the script is executed. *)
Definition executions (evs : list Event) : nat :=
  List.length
    (filter (fun ev => match ev with Engine _ (Runscript _) => true | _ => false end)
            evs).

Section Ipdb.

(** What the module finds when it is imported. *)
Variable def_colors : string.              (* the shell's colour scheme *)
Variable exec_lines : list string.         (* ipapp.exec_lines *)
(** The engine's constructor: whether it takes [context], the start-up
    lines it has read by itself (pdb reads the .pdbrc files into
    [rcLines]), and whether its instances have a [shell]. *)
Variable accepts_context : bool.
Variable pdbrc_lines : list string.
Variable engine_has_shell : bool.
(** The value of [sys.excepthook] the shell saved when it was created
    (with stdin, stdout and stderr, which are fixed here), and that its
    [restore_sys_module_state] puts back. *)
Variable shell_saved_hook : Hook.

Definition def_exec_lines : list string :=
  map (fun line => (line ++ nl)%string) exec_lines.

(** The engine's constructor.  One that does not know the keyword
    [context] raises TypeError when it is given; one that knows it raises
    ValueError("Context must be a positive integer") for a context that is
    not positive. *)
Definition debugger_cls (color_scheme : string) (context : option Z) : M Pdb :=
  match context, accepts_context with
  | Some _, false =>
      raise (new_exn TypeError ["__init__() got an unexpected keyword argument 'context'"])
  | Some c, true =>
      if (c <=? 0)%Z then
        raise (new_exn (OtherException "ValueError")
                       ["Context must be a positive integer"])
      else
        engine (New context) ;;
        ret (mkPdb color_scheme context pdbrc_lines engine_has_shell)
  | None, _ =>
      engine (New context) ;;
      ret (mkPdb color_scheme context pdbrc_lines engine_has_shell)
  end.

Definition extend_rcLines (p : Pdb) (lines : list string) : Pdb :=
  mkPdb (colors p) (context_lines p) (rcLines p ++ lines) (has_shell p).

Definition _init_pdb (context : Z) (commands : list string) : M Pdb :=
  p <- try_except (debugger_cls def_colors (Some context)) is_TypeError
         (fun _ => debugger_cls def_colors None) ;;
  let p := extend_rcLines p def_exec_lines in
  let p := extend_rcLines p commands in
  ret p.

(** [p.shell.restore_sys_module_state()]: the shell sets [sys.excepthook]
    back to the hook it saved. *)
Definition restore_sys_module_state : M unit :=
  engine RestoreSysModuleState ;;
  modify (fun w => set_hook shell_saved_hook (excepthook_ori w) w).

(** [frame = None] is the default; the loop over [dir(p)] in the source
    only reads attributes and wraps nothing. *)
Definition set_trace (frame : option Frame) (context : Z) : M unit :=
  wrap_sys_excepthook ;;
  frame <- match frame with
           | None => gets caller_frame
           | Some f => ret f
           end ;;
  p <- _init_pdb context [] ;;
  engine (SetTrace frame) ;;
  if has_shell p then restore_sys_module_state else ret tt.

Definition post_mortem (tb : option Traceback) : M unit :=
  wrap_sys_excepthook ;;
  p <- _init_pdb 3 [] ;;
  engine Reset ;;
  tb <- match tb with
        | None => gets (fun w => option_map exc_tb (exc_info w))
        | Some t => ret (Some t)
        end ;;
  match tb with
  | Some t => engine (Interaction t)
  | None => ret tt
  end.

Definition pm : M unit :=
  last <- gets last_traceback ;;
  match last with
  | None => raise (new_exn AttributeError ["module 'sys' has no attribute 'last_traceback'"])
  | Some t => post_mortem (Some t)
  end.

(** The three run primitives hand a unit of work to the engine; [work]
    is what executing it under the debugger does and gives back. *)
Definition run (statement : string) (work : M Value) : M unit :=
  p <- _init_pdb 3 [] ;;
  engine (Run statement) ;;
  work ;;
  ret tt.

Definition runcall (work : M Value) : M Value :=
  p <- _init_pdb 3 [] ;;
  engine Runcall ;;
  work.

Definition runeval (expression : string) (work : M Value) : M Value :=
  p <- _init_pdb 3 [] ;;
  engine (Runeval expression) ;;
  work.

(** [with launch_ipdb_on_exception(): body] *)
Definition launch_ipdb_on_exception (body : M unit) : M unit :=
  try_except body is_Exception
    (fun _ =>
       m <- gets exc_info ;;                  (* e, m, tb = sys.exc_info() *)
       print_to stderr [match m with Some m => exc_repr m | None => "None" end] nl ;;
       post_mortem (option_map exc_tb m)).

(** ** The script runner *)

(** One execution of the script, by how it ends.  The script is taken to
    leave [sys.argv] and [sys.excepthook] as the runner set them. *)
Definition _runscript (filename : string) (answer : ScriptRun) : M bool :=
  engine (Runscript filename) ;;
  match answer with
  | Completed user_requested_quit => ret user_requested_quit
  | Raised e => raise e
  end.

(** One turn of [while 1] in [main].  The except clauses are tried in
    the order of the source: Restart, SystemExit, then the bare one.
    The handler's [e] is what [sys.exc_info()] gives inside it. *)
Definition loop_body (mainpyfile : string) (pdb : Pdb) (answer : ScriptRun)
    : M LoopCtl :=
  try_except
    (user_requested_quit <- _runscript mainpyfile answer ;;
     if (user_requested_quit : bool) then ret Break
     else
       print ["The program finished and will be restarted"] ;;
       ret Continue)
    (fun _ => true)
    (fun e =>
       if is_Restart (exc_class e) then
         print ["Restarting"; mainpyfile; "with arguments:"] ;;
         argv <- gets sys_argv ;;
         print [(tab ++ String.concat " " (tl argv))%string] ;;
         ret Continue
       else if is_SystemExit (exc_class e) then
         print_to stdout ["The program exited via sys.exit(). Exit status: "] "" ;;
         print [exc_str e] ;;
         ret Continue
       else
         traceback_print_exc ;;
         print ["Uncaught exception. Entering post mortem debugging"] ;;
         print ["Running 'cont' or 'step' will restart the program"] ;;
         engine (Interaction (exc_tb e)) ;;
         print [("Post mortem debugger finished. The " ++ mainpyfile ++
                 " will be restarted")%string] ;;
         ret Continue).

(** The loop, against the list of what the successive executions of the
    script come to.  When the list is used up the script has been started
    once more and has not come back. *)
Fixpoint main_loop (mainpyfile : string) (pdb : Pdb) (runs : list ScriptRun)
    : M unit :=
  match runs with
  | [] => engine (Runscript mainpyfile) ;; (fun w => (w, Running))
  | answer :: runs =>
      ctl <- loop_body mainpyfile pdb answer ;;
      match ctl with
      | Break => ret tt
      | Continue => main_loop mainpyfile pdb runs
      end
  end.

(** The part of [main] between the existence test and the loop. *)
Definition setup (args : list string) (mainpyfile : string)
    (commands : list string) : M Pdb :=
  modify (set_argv args) ;;
  set_sys_path_0 (Posixpath.dirname mainpyfile) ;;
  _init_pdb 3 commands.

Definition main (runs : list ScriptRun) : M unit :=
  argv <- gets sys_argv ;;
  parsed <- getopt (tl argv) "hc:" ["--help"; "--command="] ;;
  let '(opts, args) := parsed in
  match args with
  | [] =>
      print [_usage] ;;
      sys_exit (Some 2%Z)
  | mainpyfile :: _ =>
      commands <- scan_opts opts [] ;;
      found <- path_exists mainpyfile ;;
      if negb found then
        print ["Error:"; mainpyfile; "does not exist"] ;;
        sys_exit (Some 1%Z)
      else
        pdb <- setup args mainpyfile commands ;;
        main_loop mainpyfile pdb runs
  end.

(** ** Vocabulary of the statements *)

(** The context the engine's constructor ends up with: the one asked for
    when it takes the keyword, none after the TypeError fallback. *)
Definition built_context (context : Z) : option Z :=
  if accepts_context then Some context else None.

(** Whether the engine's constructor accepts the call the factory ends up
    making: always without the keyword, and with it for a positive context. *)
Definition constructs (context : Z) : bool :=
  negb accepts_context || (0 <? context)%Z.

(** What the constructor raises otherwise. *)
Definition context_error : Exn :=
  new_exn (OtherException "ValueError") ["Context must be a positive integer"].

(** The world once the guard has run. *)
Definition guarded (w : World) : World := fst (wrap_sys_excepthook w).

(** The world once [set_trace] has restored the shell's saved state, when
    the instance has a shell. *)
Definition restored (w : World) : World :=
  if engine_has_shell then set_hook shell_saved_hook (excepthook_ori w) w else w.

(** The engine calls of [post_mortem], all made under the sentinel. *)
Definition post_mortem_events (tb : option Traceback) : list Event :=
  [Engine BdbQuit_excepthook (New (built_context 3));
   Engine BdbQuit_excepthook Reset] ++
  match tb with
  | Some t => [Engine BdbQuit_excepthook (Interaction t)]
  | None => []
  end.

(** The engine calls of [set_trace]. *)
Definition set_trace_events (frame : Frame) (context : Z) : list Event :=
  [Engine BdbQuit_excepthook (New (built_context context));
   Engine BdbQuit_excepthook (SetTrace frame)] ++
  (if engine_has_shell
   then [Engine BdbQuit_excepthook RestoreSysModuleState] else []).

(** What one turn of the runner's loop leaves in the log, by what the
    execution of the script came to. *)
Definition turn_events (mainpyfile : string) (answer : ScriptRun) (w : World)
    : list Event :=
  let h := sys_excepthook w in
  Engine h (Runscript mainpyfile) ::
  match answer with
  | Completed true => []
  | Completed false =>
      [Write stdout ("The program finished and will be restarted" ++ nl)%string]
  | Raised e =>
      if is_Restart (exc_class e) then
        [Write stdout ("Restarting " ++ mainpyfile ++ " with arguments:" ++ nl)%string;
         Write stdout (tab ++ String.concat " " (tl (sys_argv w)) ++ nl)%string]
      else if is_SystemExit (exc_class e) then
        [Write stdout "The program exited via sys.exit(). Exit status: ";
         Write stdout (exc_str e ++ nl)%string]
      else
        [PrintExc e;
         Write stdout ("Uncaught exception. Entering post mortem debugging" ++ nl)%string;
         Write stdout ("Running 'cont' or 'step' will restart the program" ++ nl)%string;
         Engine h (Interaction (exc_tb e));
         Write stdout ("Post mortem debugger finished. The " ++ mainpyfile ++
                       " will be restarted" ++ nl)%string]
  end.

Definition turn_ctl (answer : ScriptRun) : LoopCtl :=
  match answer with
  | Completed true => Break
  | _ => Continue
  end.

(** Whether an option of the parsed command line is a help flag, and the
    commands the -c options give. *)
Definition is_help (o : string * string) : bool :=
  Getopt.mem (fst o) ["-h"; "--help"].

Definition is_command (o : string * string) : bool :=
  Getopt.mem (fst o) ["-c"; "--command"].

Definition commands_of (opts : Getopt.Opts) : list string :=
  map snd (filter is_command opts).

Definition parse (w : World) : Getopt.Result :=
  Getopt.getopt (tl (sys_argv w)) "hc:" ["--help"; "--command="].

(** ** Properties *)

(** *** Basic facts *)

Lemma Hook_eqb_spec (a b : Hook) : reflect (a = b) (Hook_eqb a b).
Proof.
  destruct a as [|i], b as [|j]; simpl; try (constructor; congruence).
  destruct (Nat.eqb_spec i j); constructor; congruence.
Qed.

Lemma wrap_installed (w : World) :
  sys_excepthook w = BdbQuit_excepthook ->
  wrap_sys_excepthook w = (w, Ret tt).
Proof.
  intros H. unfold wrap_sys_excepthook. rewrite H. reflexivity.
Qed.

Lemma wrap_not_installed (w : World) :
  sys_excepthook w <> BdbQuit_excepthook ->
  wrap_sys_excepthook w =
    (set_hook BdbQuit_excepthook (Some (sys_excepthook w)) w, Ret tt).
Proof.
  intros H. unfold wrap_sys_excepthook.
  destruct (Hook_eqb_spec (sys_excepthook w) BdbQuit_excepthook); [contradiction|reflexivity].
Qed.

Lemma wrap_returns (w : World) : snd (wrap_sys_excepthook w) = Ret tt.
Proof.
  unfold wrap_sys_excepthook.
  destruct (negb (Hook_eqb (sys_excepthook w) BdbQuit_excepthook)); reflexivity.
Qed.

Lemma wrap_hook (w : World) :
  sys_excepthook (fst (wrap_sys_excepthook w)) = BdbQuit_excepthook.
Proof.
  destruct (Hook_eqb_spec (sys_excepthook w) BdbQuit_excepthook) as [E|E].
  - rewrite (wrap_installed w E). exact E.
  - rewrite (wrap_not_installed w E). reflexivity.
Qed.

Lemma wrap_log (w : World) : log (fst (wrap_sys_excepthook w)) = log w.
Proof.
  unfold wrap_sys_excepthook.
  destruct (negb (Hook_eqb (sys_excepthook w) BdbQuit_excepthook)); reflexivity.
Qed.

Lemma wrap_twice (w : World) :
  wrap_sys_excepthook (fst (wrap_sys_excepthook w)) = wrap_sys_excepthook w.
Proof.
  rewrite (wrap_installed _ (wrap_hook w)).
  rewrite (surjective_pairing (wrap_sys_excepthook w)) at 2.
  now rewrite wrap_returns.
Qed.

Lemma repeat_wrap_S (n : nat) (w : World) :
  repeat_wrap (S n) w = repeat_wrap n (fst (wrap_sys_excepthook w)).
Proof.
  simpl. unfold bind.
  rewrite (surjective_pairing (wrap_sys_excepthook w)), wrap_returns.
  reflexivity.
Qed.

Lemma repeat_wrap_once (n : nat) (w : World) :
  repeat_wrap (S n) w = wrap_sys_excepthook w.
Proof.
  revert w. induction n as [|n IH]; intros w.
  - rewrite repeat_wrap_S. simpl. unfold ret.
    rewrite (surjective_pairing (wrap_sys_excepthook w)) at 2.
    now rewrite wrap_returns.
  - rewrite repeat_wrap_S, IH. apply wrap_twice.
Qed.

(** The factory, in one equation: one engine call (with [context] when
    the engine takes it), and the start-up lines in the order the source
    appends them. *)
Lemma _init_pdb_eq (context : Z) (commands : list string) (w : World) :
  constructs context = true ->
  _init_pdb context commands w =
    (add_log [Engine (sys_excepthook w) (New (built_context context))] w,
     Ret (mkPdb def_colors (built_context context)
                ((pdbrc_lines ++ def_exec_lines) ++ commands)
                engine_has_shell)).
Proof.
  unfold constructs, _init_pdb, built_context, debugger_cls, try_except, bind.
  destruct accepts_context; cbn [negb orb]; intros C.
  - destruct (Z.leb_spec context 0) as [L|L];
      [apply Z.ltb_lt in C; lia|]. destruct w; reflexivity.
  - destruct w; reflexivity.
Qed.

(** With an engine that knows the keyword, a context that is not positive
    makes the constructor raise ValueError; the factory catches TypeError
    only, so the ValueError goes through. *)
Lemma _init_pdb_raises (context : Z) (commands : list string) (w : World) :
  constructs context = false ->
  _init_pdb context commands w = (w, Raise context_error).
Proof.
  unfold constructs, _init_pdb, debugger_cls, try_except, bind.
  destruct accepts_context; cbn [negb orb]; [|discriminate]. intros C.
  destruct (Z.leb_spec context 0) as [L|L];
    [reflexivity|apply Z.ltb_ge in C; lia].
Qed.

Lemma constructs_3 : constructs 3 = true.
Proof. unfold constructs. apply orb_true_r. Qed.

(** Two worlds built by the same updates in a row are equal once the
    appends to the log are put in the same shape. *)
Lemma string_app_assoc (a b c : string) :
  ((a ++ b) ++ c)%string = (a ++ (b ++ c))%string.
Proof. induction a as [|x a IH]; cbn; [reflexivity|now rewrite IH]. Qed.

Ltac world_eq :=
  unfold add_log, set_exc_info;
  repeat (progress (cbn; rewrite ?string_app_assoc, <- ?app_assoc));
  reflexivity.

Lemma add_log_app (a b : list Event) (w : World) :
  add_log b (add_log a w) = add_log (a ++ b) w.
Proof. unfold add_log. simpl. now rewrite app_assoc. Qed.

Lemma guarded_hook (w : World) : sys_excepthook (guarded w) = BdbQuit_excepthook.
Proof. apply wrap_hook. Qed.

Lemma guarded_exc_info (w : World) : exc_info (guarded w) = exc_info w.
Proof.
  unfold guarded, wrap_sys_excepthook.
  destruct (negb (Hook_eqb (sys_excepthook w) BdbQuit_excepthook)); reflexivity.
Qed.

Lemma guarded_log (w : World) : log (guarded w) = log w.
Proof. apply wrap_log. Qed.

Lemma wrap_guarded (w : World) : wrap_sys_excepthook w = (guarded w, Ret tt).
Proof.
  unfold guarded. rewrite (surjective_pairing (wrap_sys_excepthook w)) at 1.
  now rewrite wrap_returns.
Qed.

(** [post_mortem] in one equation. *)
Lemma post_mortem_eq (tb : option Traceback) (w : World) :
  post_mortem tb w =
    (add_log (post_mortem_events
                (match tb with
                 | Some t => Some t
                 | None => option_map exc_tb (exc_info w)
                 end))
             (guarded w),
     Ret tt).
Proof.
  unfold post_mortem, bind at 1. rewrite wrap_guarded.
  unfold bind at 1. rewrite (_init_pdb_eq _ _ _ constructs_3).
  unfold bind, engine, gets, ret, post_mortem_events.
  rewrite <- (guarded_exc_info w).
  generalize (guarded_hook w). generalize (guarded w). intros g Hg.
  destruct tb as [t|]; simpl; rewrite ?Hg.
  - now rewrite !add_log_app.
  - destruct (option_map exc_tb (exc_info g)); simpl; rewrite ?Hg;
      now rewrite !add_log_app.
Qed.

Lemma guarded_caller_frame (w : World) : caller_frame (guarded w) = caller_frame w.
Proof.
  unfold guarded, wrap_sys_excepthook.
  destruct (negb (Hook_eqb (sys_excepthook w) BdbQuit_excepthook)); reflexivity.
Qed.

(** [set_trace] in one equation. *)
Lemma set_trace_eq (frame : option Frame) (context : Z) (w : World) :
  constructs context = true ->
  set_trace frame context w =
    (restored
       (add_log (set_trace_events
                   (match frame with Some f => f | None => caller_frame w end)
                   context)
                (guarded w)),
     Ret tt).
Proof.
  intros C. unfold set_trace, bind at 1. rewrite wrap_guarded.
  rewrite <- (guarded_caller_frame w).
  generalize (guarded_hook w). generalize (guarded w). intros g Hg.
  unfold set_trace_events, restored, restore_sys_module_state.
  destruct frame as [f|]; unfold bind at 1, ret, gets;
    unfold bind at 1; rewrite (_init_pdb_eq _ _ _ C);
    unfold bind, engine, ret, modify;
    cbn [has_shell sys_excepthook add_log]; rewrite Hg;
    destruct engine_has_shell; cbn [sys_excepthook add_log]; rewrite ?Hg;
    now rewrite !add_log_app.
Qed.

(** [set_trace] when the constructor refuses the context: the guard has
    run, and the ValueError leaves [set_trace]. *)
Lemma set_trace_raises (frame : option Frame) (context : Z) (w : World) :
  constructs context = false ->
  set_trace frame context w = (guarded w, Raise context_error).
Proof.
  intros C. unfold set_trace, bind at 1. rewrite wrap_guarded.
  destruct frame as [f|]; unfold bind at 1, ret, gets;
    unfold bind at 1; now rewrite (_init_pdb_raises _ _ _ C).
Qed.

(** One turn of the loop in one equation. *)
Lemma loop_body_eq (mainpyfile : string) (pdb : Pdb) (answer : ScriptRun)
    (w : World) :
  loop_body mainpyfile pdb answer w =
    (add_log (turn_events mainpyfile answer w) w, Ret (turn_ctl answer)).
Proof.
  unfold loop_body, try_except, _runscript, turn_events, turn_ctl.
  destruct answer as [[|]|e]; destruct w; cbn.
  - reflexivity.
  - world_eq.
  - destruct (is_Restart (exc_class e)); [world_eq|].
    destruct (is_SystemExit (exc_class e)); world_eq.
Qed.

Lemma main_loop_cons (mainpyfile : string) (pdb : Pdb) (answer : ScriptRun)
    (runs : list ScriptRun) (w : World) :
  main_loop mainpyfile pdb (answer :: runs) w =
    match turn_ctl answer with
    | Break => (add_log (turn_events mainpyfile answer w) w, Ret tt)
    | Continue =>
        main_loop mainpyfile pdb runs (add_log (turn_events mainpyfile answer w) w)
    end.
Proof.
  cbn [main_loop]. unfold bind. rewrite loop_body_eq.
  destruct (turn_ctl answer); reflexivity.
Qed.

(** Every turn starts by executing the script from the top, and what is
    already in the log stays. *)
Lemma main_loop_starts_script (mainpyfile : string) (pdb : Pdb)
    (runs : list ScriptRun) (w : World) :
  exists later,
    log (fst (main_loop mainpyfile pdb runs w)) =
      log w ++ Engine (sys_excepthook w) (Runscript mainpyfile) :: later.
Proof.
  revert w. induction runs as [|a runs IH]; intros w.
  - exists []. reflexivity.
  - rewrite main_loop_cons. destruct (turn_ctl a).
    + eexists. cbn [fst add_log log turn_events]. reflexivity.
    + destruct (IH (add_log (turn_events mainpyfile a w) w)) as [later E].
      rewrite E. cbn [add_log log turn_events sys_excepthook].
      rewrite <- app_assoc. eexists. cbn [app]. reflexivity.
Qed.

Lemma scan_opts_help (opts : Getopt.Opts) (commands : list string) (w : World) :
  existsb is_help opts = true ->
  scan_opts opts commands w =
    (add_log [Write stdout (_usage ++ nl)%string] w,
     Raise (system_exit None)).
Proof.
  revert commands. induction opts as [|[opt optarg] opts IH]; intros commands H.
  - discriminate.
  - cbn [existsb] in H. cbn [scan_opts]. unfold is_help at 1 in H. cbn [fst] in H.
    destruct (Getopt.mem opt ["-h"; "--help"]).
    + reflexivity.
    + cbn [orb] in H.
      destruct (Getopt.mem opt ["-c"; "--command"]); now apply IH.
Qed.

Lemma scan_opts_no_help (opts : Getopt.Opts) (commands : list string) (w : World) :
  existsb is_help opts = false ->
  scan_opts opts commands w = (w, Ret (commands ++ commands_of opts)).
Proof.
  revert commands. induction opts as [|[opt optarg] opts IH]; intros commands H.
  - unfold commands_of. cbn. now rewrite app_nil_r.
  - cbn [existsb] in H. apply orb_false_iff in H. destruct H as [H1 H2].
    unfold is_help in H1. cbn [fst] in H1.
    cbn [scan_opts]. rewrite H1.
    unfold commands_of. cbn [filter]. unfold is_command at 1. cbn [fst].
    destruct (Getopt.mem opt ["-c"; "--command"]).
    + rewrite (IH _ H2). unfold commands_of. cbn [map snd].
      now rewrite <- app_assoc.
    + now rewrite (IH _ H2).
Qed.

Lemma run_eq (statement : string) (work : M Value) (w : World) :
  run statement work w =
    (work ;; ret tt)
      (add_log [Engine (sys_excepthook w) (New (built_context 3));
                Engine (sys_excepthook w) (Run statement)] w).
Proof.
  unfold run, bind at 1. rewrite (_init_pdb_eq _ _ _ constructs_3).
  unfold bind at 1, engine. cbn [sys_excepthook add_log].
  now rewrite add_log_app.
Qed.

Lemma runcall_eq (work : M Value) (w : World) :
  runcall work w =
    work (add_log [Engine (sys_excepthook w) (New (built_context 3));
                   Engine (sys_excepthook w) Runcall] w).
Proof.
  unfold runcall, bind at 1. rewrite (_init_pdb_eq _ _ _ constructs_3).
  unfold bind at 1, engine. cbn [sys_excepthook add_log].
  now rewrite add_log_app.
Qed.

Lemma runeval_eq (expression : string) (work : M Value) (w : World) :
  runeval expression work w =
    work (add_log [Engine (sys_excepthook w) (New (built_context 3));
                   Engine (sys_excepthook w) (Runeval expression)] w).
Proof.
  unfold runeval, bind at 1. rewrite (_init_pdb_eq _ _ _ constructs_3).
  unfold bind at 1, engine. cbn [sys_excepthook add_log].
  now rewrite add_log_app.
Qed.

Lemma SystemExit_not_Restart (c : ExcClass) :
  is_SystemExit c = true -> is_Restart c = false.
Proof. destruct c; simpl; congruence. Qed.

(** [main] once the command line is parsed. *)
Lemma main_parsed (runs : list ScriptRun) (w : World) (opts : Getopt.Opts)
    (args : list string) :
  parse w = inr (opts, args) ->
  main runs w =
    match args with
    | [] => (print [_usage] ;; sys_exit (Some 2%Z)) w
    | mainpyfile :: _ =>
        (commands <- scan_opts opts [] ;;
         found <- path_exists mainpyfile ;;
         if negb found then
           print ["Error:"; mainpyfile; "does not exist"] ;;
           sys_exit (Some 1%Z)
         else
           pdb <- setup args mainpyfile commands ;;
           main_loop mainpyfile pdb runs) w
    end.
Proof.
  intros P. unfold main. unfold bind at 1. unfold gets. cbn beta iota.
  unfold bind at 1, getopt. unfold parse in P. rewrite P. unfold ret at 1.
  cbn beta iota. destruct args; reflexivity.
Qed.

(** *** The claims *)

(** C1. The guard is idempotent: [n >= 1] calls in a row do what one call
    does.  Afterwards the sentinel is the global hook; the guard does not
    record the sentinel as its own original (unless a cycle was there
    before), so there is exactly one interception layer; and the hook that
    was active before the first installation is the recorded original, the
    one an uncaught exception (other than the debugger's quit) ends at. *)
Theorem C1_wrap_sys_excepthook_idempotent (n : nat) (w : World) :
  1 <= n ->
  let w' := fst (repeat_wrap n w) in
  repeat_wrap n w = wrap_sys_excepthook w /\
  snd (repeat_wrap n w) = Ret tt /\
  sys_excepthook w' = BdbQuit_excepthook /\
  (sys_excepthook w <> BdbQuit_excepthook \/
   excepthook_ori w <> Some BdbQuit_excepthook ->
     excepthook_ori w' <> Some BdbQuit_excepthook /\
     interception_layers w' = Some 1) /\
  (sys_excepthook w <> BdbQuit_excepthook ->
     excepthook_ori w' = Some (sys_excepthook w) /\
     forall c, c <> BdbQuit ->
       dispatch_uncaught w' c = HandledBy (sys_excepthook w)).
Proof.
  intros Hn. destruct n as [|n]; [lia|]. cbv zeta.
  rewrite repeat_wrap_once.
  split; [reflexivity|]. split; [apply wrap_returns|].
  split; [apply wrap_hook|]. split.
  - intros H.
    destruct (Hook_eqb_spec (sys_excepthook w) BdbQuit_excepthook) as [E|E].
    + rewrite (wrap_installed w E). simpl.
      destruct H as [H|H]; [contradiction|].
      split; [exact H|].
      unfold interception_layers. rewrite E.
      destruct (excepthook_ori w) as [[|i]|]; try reflexivity.
      now contradiction H.
    + rewrite (wrap_not_installed w E). simpl.
      split; [congruence|].
      unfold interception_layers. simpl.
      destruct (sys_excepthook w); [now contradiction E|reflexivity].
  - intros E. rewrite (wrap_not_installed w E). simpl.
    split; [reflexivity|].
    intros c Hc. unfold dispatch_uncaught. simpl.
    destruct (sys_excepthook w) as [|i]; [now contradiction E|].
    destruct c; try reflexivity. now contradiction Hc.
Qed.

(** C4 (amended). For every [context >= 1] and every sequence of extra
    commands the factory returns an instance whose start-up lines are the
    lines the engine's constructor has read by itself, then the shell's
    configured lines, then the extra commands, in that order and without
    dropping repeats; with an engine that starts with no line of its own
    they are the shell's lines followed by the extra commands. *)
Theorem C4_init_pdb_rcLines (context : Z) (commands : list string) (w : World) :
  (1 <= context)%Z ->
  exists w' p,
    _init_pdb context commands w = (w', Ret p) /\
    rcLines p = pdbrc_lines ++ def_exec_lines ++ commands /\
    (pdbrc_lines = [] -> rcLines p = def_exec_lines ++ commands).
Proof.
  intros H.
  assert (C : constructs context = true).
  { unfold constructs. apply orb_true_iff. right. apply Z.ltb_lt. lia. }
  rewrite (_init_pdb_eq _ _ _ C). eexists. eexists.
  split; [reflexivity|]. simpl. rewrite <- app_assoc.
  split; [reflexivity|]. intros ->. reflexivity.
Qed.

(** C7. [post_mortem] with no traceback, while no exception is being
    handled, returns normally and enters no interactive session: the only
    engine calls are the construction and the reset of the instance. *)
Theorem C7_post_mortem_without_traceback (w : World) :
  exc_info w = None ->
  let r := post_mortem None w in
  snd r = Ret tt /\
  log (fst r) = log w ++ post_mortem_events None /\
  sessions (post_mortem_events None) = 0.
Proof.
  intros H. cbv zeta. rewrite post_mortem_eq, H.
  cbn [fst snd option_map add_log log]. rewrite guarded_log. repeat split.
Qed.

(** C10. Whatever its argument, [post_mortem] first runs the guard, then
    builds and resets a fresh instance, and only then looks at the
    traceback: after the call the sentinel is the global hook, the hook
    that was active is recorded as the original, and the log has grown by
    the construction and the reset, which are all there is in the no-op
    case. *)
Theorem C10_post_mortem_installs_hook (tb : option Traceback) (w : World) :
  let r := post_mortem tb w in
  sys_excepthook (fst r) = BdbQuit_excepthook /\
  (exists evs,
     log (fst r) =
       log w ++ [Engine BdbQuit_excepthook (New (built_context 3));
                 Engine BdbQuit_excepthook Reset] ++ evs /\
     (tb = None -> exc_info w = None -> evs = [])) /\
  (sys_excepthook w <> BdbQuit_excepthook ->
     excepthook_ori (fst r) = Some (sys_excepthook w) /\
     fst r <> w).
Proof.
  cbv zeta. rewrite post_mortem_eq.
  cbn [fst snd add_log log sys_excepthook excepthook_ori].
  split; [apply guarded_hook|]. split.
  - eexists. rewrite guarded_log. split; [reflexivity|].
    intros -> ->. reflexivity.
  - intros E. unfold guarded. rewrite (wrap_not_installed w E). simpl.
    split; [reflexivity|]. intros C. apply E. rewrite <- C. reflexivity.
Qed.

(** C2 (amended). [set_trace], [post_mortem] and [pm] run the guard before
    they ask the factory for an instance: the engine's constructor is
    called under the sentinel ([pm] raises AttributeError before anything
    else when there is no last traceback).  When [post_mortem] or [pm]
    returns, the sentinel is the global hook.  When [set_trace] returns, it
    is so for an instance without a shell; with a shell the last step of
    [set_trace], restore_sys_module_state, has put back the hook the shell
    saved.  When the constructor refuses the context (not positive),
    [set_trace] raises its ValueError, the guard having run.  [run],
    [runcall] and [runeval] do not run the guard: the constructor and the
    run primitive are called under whatever hook is active, and a unit of
    work that leaves the hook alone leaves it as it was. *)
Theorem C2_guard_before_factory (w : World) :
  (forall frame context,
     let r := set_trace frame context w in
     if constructs context then
       snd r = Ret tt /\
       log (fst r) =
         log w ++ set_trace_events
                    (match frame with Some f => f | None => caller_frame w end)
                    context /\
       sys_excepthook (fst r) =
         (if engine_has_shell then shell_saved_hook else BdbQuit_excepthook)
     else
       snd r = Raise context_error /\
       log (fst r) = log w /\
       sys_excepthook (fst r) = BdbQuit_excepthook) /\
  (forall tb,
     let r := post_mortem tb w in
     snd r = Ret tt /\
     sys_excepthook (fst r) = BdbQuit_excepthook /\
     log (fst r) =
       log w ++ post_mortem_events
                  (match tb with
                   | Some t => Some t
                   | None => option_map exc_tb (exc_info w)
                   end)) /\
  match last_traceback w with
  | Some t =>
      snd (pm w) = Ret tt /\
      sys_excepthook (fst (pm w)) = BdbQuit_excepthook /\
      log (fst (pm w)) = log w ++ post_mortem_events (Some t)
  | None =>
      fst (pm w) = w /\
      exists e, snd (pm w) = Raise e /\ exc_class e = AttributeError
  end /\
  let h := sys_excepthook w in
  (forall statement work,
     run statement work w =
       (work ;; ret tt)
         (add_log [Engine h (New (built_context 3)); Engine h (Run statement)] w)) /\
  (forall work,
     runcall work w =
       work (add_log [Engine h (New (built_context 3)); Engine h Runcall] w)) /\
  (forall expression work,
     runeval expression work w =
       work (add_log [Engine h (New (built_context 3));
                      Engine h (Runeval expression)] w)) /\
  (forall statement expression v,
     sys_excepthook (fst (run statement (ret v) w)) = h /\
     sys_excepthook (fst (runcall (ret v) w)) = h /\
     sys_excepthook (fst (runeval expression (ret v) w)) = h).
Proof.
  split; [|split; [|split]].
  - intros frame context. cbv zeta. destruct (constructs context) eqn:C.
    + rewrite (set_trace_eq _ _ _ C). unfold restored.
      destruct engine_has_shell;
        cbn [fst snd add_log set_hook log sys_excepthook];
        rewrite ?guarded_hook, guarded_log; repeat split.
    + rewrite (set_trace_raises _ _ _ C). cbn [fst snd].
      rewrite guarded_hook, guarded_log. repeat split.
  - intros tb. cbv zeta. rewrite post_mortem_eq.
    cbn [fst snd add_log log sys_excepthook].
    rewrite guarded_hook, guarded_log. repeat split.
  - unfold pm, bind, gets. cbn [fst snd].
    destruct (last_traceback w) as [t|].
    + rewrite post_mortem_eq. cbn [fst snd add_log log sys_excepthook].
      rewrite guarded_hook, guarded_log. repeat split.
    + split; [reflexivity|]. eexists. split; reflexivity.
  - cbv zeta. split; [exact (fun s k => run_eq s k w)|].
    split; [exact (fun k => runcall_eq k w)|].
    split; [exact (fun e k => runeval_eq e k w)|].
    intros statement expression v.
    rewrite run_eq, runcall_eq, runeval_eq. repeat split.
Qed.

(** C3 (amended). When the script raises SystemExit the runner prints
    the exit status and enters no post-mortem session; the loop is not
    left: it takes another turn, which executes the script again. *)
Theorem C3_program_exit_restarts (mainpyfile : string) (pdb : Pdb) (e : Exn)
    (runs : list ScriptRun) (w : World) :
  is_SystemExit (exc_class e) = true ->
  let h := sys_excepthook w in
  let evs := [Engine h (Runscript mainpyfile);
              Write stdout "The program exited via sys.exit(). Exit status: ";
              Write stdout (exc_str e ++ nl)%string] in
  loop_body mainpyfile pdb (Raised e) w = (add_log evs w, Ret Continue) /\
  sessions evs = 0 /\
  main_loop mainpyfile pdb (Raised e :: runs) w =
    main_loop mainpyfile pdb runs (add_log evs w) /\
  exists later,
    log (fst (main_loop mainpyfile pdb (Raised e :: runs) w)) =
      log w ++ evs ++ Engine h (Runscript mainpyfile) :: later.
Proof.
  intros H. cbv zeta.
  assert (E : turn_events mainpyfile (Raised e) w =
              [Engine (sys_excepthook w) (Runscript mainpyfile);
               Write stdout "The program exited via sys.exit(). Exit status: ";
               Write stdout (exc_str e ++ nl)%string]).
  { unfold turn_events. now rewrite (SystemExit_not_Restart _ H), H. }
  rewrite main_loop_cons, loop_body_eq, E. cbn [turn_ctl].
  split; [reflexivity|]. split; [reflexivity|]. split; [reflexivity|].
  match goal with |- context [main_loop _ _ _ ?w1] =>
    destruct (main_loop_starts_script mainpyfile pdb runs w1) as [later L]
  end.
  exists later. rewrite L. cbn [add_log log sys_excepthook].
  now rewrite <- app_assoc.
Qed.

(** C5. When the script raises an exception that is neither a restart
    request nor SystemExit, the runner prints the traceback, announces the
    post-mortem, enters one interactive session at the exception's
    traceback, prints the notice that the script will be restarted once
    the session is over, and the next turn of the loop executes the script
    again from the top. *)
Theorem C5_uncaught_exception_post_mortem (mainpyfile : string) (pdb : Pdb)
    (e : Exn) (runs : list ScriptRun) (w : World) :
  is_Restart (exc_class e) = false ->
  is_SystemExit (exc_class e) = false ->
  let h := sys_excepthook w in
  let evs :=
    [Engine h (Runscript mainpyfile);
     PrintExc e;
     Write stdout ("Uncaught exception. Entering post mortem debugging" ++ nl)%string;
     Write stdout ("Running 'cont' or 'step' will restart the program" ++ nl)%string;
     Engine h (Interaction (exc_tb e));
     Write stdout ("Post mortem debugger finished. The " ++ mainpyfile ++
                   " will be restarted" ++ nl)%string] in
  loop_body mainpyfile pdb (Raised e) w = (add_log evs w, Ret Continue) /\
  sessions evs = 1 /\
  main_loop mainpyfile pdb (Raised e :: runs) w =
    main_loop mainpyfile pdb runs (add_log evs w) /\
  exists later,
    log (fst (main_loop mainpyfile pdb (Raised e :: runs) w)) =
      log w ++ evs ++ Engine h (Runscript mainpyfile) :: later.
Proof.
  intros H1 H2. cbv zeta.
  assert (E : turn_events mainpyfile (Raised e) w =
              [Engine (sys_excepthook w) (Runscript mainpyfile);
               PrintExc e;
               Write stdout ("Uncaught exception. Entering post mortem debugging" ++ nl)%string;
               Write stdout ("Running 'cont' or 'step' will restart the program" ++ nl)%string;
               Engine (sys_excepthook w) (Interaction (exc_tb e));
               Write stdout ("Post mortem debugger finished. The " ++ mainpyfile ++
                             " will be restarted" ++ nl)%string]).
  { unfold turn_events. now rewrite H1, H2. }
  rewrite main_loop_cons, loop_body_eq, E. cbn [turn_ctl].
  split; [reflexivity|]. split; [reflexivity|]. split; [reflexivity|].
  match goal with |- context [main_loop _ _ _ ?w1] =>
    destruct (main_loop_starts_script mainpyfile pdb runs w1) as [later L]
  end.
  exists later. rewrite L. cbn [add_log log sys_excepthook].
  now rewrite <- app_assoc.
Qed.

(** C6 (amended). With what the guarded block comes to: an exception of
    class Exception is printed to the error stream once (its repr), a
    post-mortem at its traceback follows, and the block ends normally; an
    exception outside Exception (SystemExit, KeyboardInterrupt,
    GeneratorExit) leaves the scope as it came, with nothing printed and no
    post-mortem; a block that returns is left as it is. *)
Theorem C6_launch_ipdb_on_exception (body : M unit) (w w1 : World)
    (r : Res unit) :
  body w = (w1, r) ->
  let out := launch_ipdb_on_exception body w in
  match r with
  | Raise e =>
      if is_Exception (exc_class e) then
        let evs := Write stderr (exc_repr e ++ nl)%string ::
                   post_mortem_events (Some (exc_tb e)) in
        snd out = Ret tt /\
        log (fst out) = log w1 ++ evs /\
        written stderr evs = [(exc_repr e ++ nl)%string] /\
        sessions evs = 1
      else out = (w1, Raise e)
  | _ => out = (w1, r)
  end.
Proof.
  intros H. cbv zeta. unfold launch_ipdb_on_exception, try_except.
  rewrite H. destruct r as [u|e|]; try reflexivity.
  destruct (is_Exception (exc_class e)); [|reflexivity].
  unfold bind, gets, print_to, modify.
  cbn [exc_info set_exc_info option_map String.concat].
  rewrite post_mortem_eq.
  cbn [fst snd add_log set_exc_info log].
  rewrite guarded_log. cbn [add_log set_exc_info log].
  rewrite <- app_assoc. repeat split.
Qed.

(** C8 (amended). When the parsed options include a help flag, [main]
    prints the usage text and the process exits: with status 0 when the
    command line also names a script, with status 2 when it names none
    (the test for a missing script comes first). *)
Theorem C8_help_exit_status (runs : list ScriptRun) (w : World)
    (opts : Getopt.Opts) (args : list string) :
  parse w = inr (opts, args) ->
  existsb is_help opts = true ->
  let r := main runs w in
  log (fst r) = log w ++ [Write stdout (_usage ++ nl)%string] /\
  exit_status (snd r) = Some (match args with [] => 2 | _ :: _ => 0 end)%Z.
Proof.
  intros P H. cbv zeta.
  assert (E : main runs w =
              (add_log [Write stdout (_usage ++ nl)%string] w,
               Raise (system_exit (match args with
                                   | [] => Some 2%Z
                                   | _ :: _ => None
                                   end)))).
  { rewrite (main_parsed runs w opts args P).
    destruct args as [|mainpyfile rest]; [reflexivity|].
    unfold bind at 1. now rewrite (scan_opts_help opts [] w H). }
  rewrite E. destruct args; split; reflexivity.
Qed.

(** C9 (amended). Once the options are parsed without a help flag and the
    script exists, [main] makes the argument list the script path followed
    by its arguments and puts the script's directory in the first place of
    the module search path, in place of the entry that was first: the
    other entries stay and the path keeps its length.  The loop then runs
    with an instance seeded with the -c commands. *)
Theorem C9_setup_argv_and_path (runs : list ScriptRun) (w : World)
    (opts : Getopt.Opts) (mainpyfile : string) (rest : list string)
    (old : string) (others : list string) :
  parse w = inr (opts, mainpyfile :: rest) ->
  existsb is_help opts = false ->
  existsb (String.eqb mainpyfile) (files w) = true ->
  sys_path w = old :: others ->
  exists w' pdb,
    setup (mainpyfile :: rest) mainpyfile (commands_of opts) w = (w', Ret pdb) /\
    main runs w = main_loop mainpyfile pdb runs w' /\
    sys_argv w' = mainpyfile :: rest /\
    sys_path w' = Posixpath.dirname mainpyfile :: others /\
    hd_error (sys_path w') = Some (Posixpath.dirname mainpyfile) /\
    List.length (sys_path w') = List.length (sys_path w) /\
    rcLines pdb = pdbrc_lines ++ def_exec_lines ++ commands_of opts.
Proof.
  intros P H F S.
  assert (E : setup (mainpyfile :: rest) mainpyfile (commands_of opts) w =
              (add_log [Engine (sys_excepthook w) (New (built_context 3))]
                 (set_path (Posixpath.dirname mainpyfile :: others)
                    (set_argv (mainpyfile :: rest) w)),
               Ret (mkPdb def_colors (built_context 3)
                      ((pdbrc_lines ++ def_exec_lines) ++ commands_of opts)
                      engine_has_shell))).
  { unfold setup, bind at 1, modify. unfold bind at 1, set_sys_path_0.
    cbn [sys_path set_argv]. rewrite S.
    now rewrite (_init_pdb_eq _ _ _ constructs_3). }
  eexists. eexists. split; [exact E|]. split.
  - rewrite (main_parsed runs w opts _ P).
    unfold bind at 1. rewrite (scan_opts_no_help opts [] w H).
    unfold bind at 1, path_exists, gets. rewrite F. cbn [negb app].
    unfold bind at 1. now rewrite E.
  - cbn [sys_argv sys_path add_log set_path set_argv rcLines hd_error List.length].
    rewrite S, <- app_assoc. repeat split.
Qed.

End Ipdb.

(** ** The command-line parser is total *)

(** The parser is total: the turns given to its loop are never used up. *)
Lemma do_shorts_args (optstring shortopts : string) :
  forall opts args opts' args',
    Getopt.do_shorts opts optstring shortopts args = inr (opts', args') ->
    List.length args' <= List.length args.
Proof.
  induction optstring as [|c optstring IH]; intros opts args opts' args' H.
  - inversion H. lia.
  - cbn [Getopt.do_shorts] in H.
    destruct (Getopt.short_has_arg c shortopts) as [[|]|]; [| |discriminate].
    + destruct optstring; destruct args; inversion H; cbn; lia.
    + now apply IH in H.
Qed.

Lemma do_longs_args (opts : Getopt.Opts) (opt : string)
    (longopts args : list string) (opts' : Getopt.Opts) (args' : list string) :
  Getopt.do_longs opts opt longopts args = inr (opts', args') ->
  List.length args' <= List.length args.
Proof.
  unfold Getopt.do_longs. destruct (Getopt.split_eq opt) as [o optarg].
  destruct (Getopt.long_has_args o longopts) as [msg|[[|] o']]; [discriminate| |].
  - destruct optarg; destruct args; intros H; inversion H; cbn; lia.
  - destruct optarg; intros H; inversion H; lia.
Qed.

Lemma getopt_loop_total (shortopts : string) (longopts : list string)
    (turns : nat) :
  forall opts args,
    List.length args <= turns ->
    exists r, Getopt.getopt_loop turns opts args shortopts longopts = Some r.
Proof.
  induction turns as [|turns IH]; intros opts args L.
  - destruct args; [|cbn in L; lia]. eexists. reflexivity.
  - destruct args as [|a rest]; [eexists; reflexivity|].
    cbn [Getopt.getopt_loop].
    destruct (Getopt.startswith a "-" && negb (a =? "-")%string);
      [|eexists; reflexivity].
    destruct (a =? "--")%string; [eexists; reflexivity|].
    cbn in L.
    destruct (Getopt.startswith a "--").
    + destruct (Getopt.do_longs opts (Getopt.drop 2 a) longopts rest)
        as [msg|[opts' args']] eqn:E; [eexists; reflexivity|].
      apply do_longs_args in E. apply IH. lia.
    + destruct (Getopt.do_shorts opts (Getopt.drop 1 a) shortopts rest)
        as [msg|[opts' args']] eqn:E; [eexists; reflexivity|].
      apply do_shorts_args in E. apply IH. lia.
Qed.

Lemma getopt_total (args : list string) (shortopts : string)
    (longopts : list string) :
  Getopt.getopt_loop (List.length args) [] args shortopts longopts =
    Some (Getopt.getopt args shortopts longopts).
Proof.
  unfold Getopt.getopt.
  destruct (getopt_loop_total shortopts longopts (List.length args) [] args
              (le_n _)) as [r E].
  now rewrite E.
Qed.

(** ** Concrete runs *)

(** [python -m ipdb --help dir/s.py]: the long options are declared to
    getopt with their dashes, so it does not know [--help]. *)
Example long_help_not_recognized :
  let r := main "Linux" demo_exec_lines true demo_pdbrc true []
             (with_argv ["/site/ipdb/__main__.py"; "--help"; "dir/s.py"]) in
  snd r = Raise (new_exn GetoptError ["option --help not recognized"; "help"]) /\
  log (fst r) = [] /\
  exit_status (snd r) = Some 1%Z.
Proof. vm_compute. repeat split. Qed.

(** [python -m ipdb nofile.py]: the script is missing. *)
Example missing_script_exit_status :
  let r := main "Linux" demo_exec_lines true demo_pdbrc true []
             (with_argv ["/site/ipdb/__main__.py"; "nofile.py"]) in
  log (fst r) = [Write stdout ("Error: nofile.py does not exist" ++ nl)%string] /\
  exit_status (snd r) = Some 1%Z.
Proof. vm_compute. repeat split. Qed.

(** C1, at three calls in a fresh process. *)
Lemma C1_witness :
  1 <= 3 /\
  repeat_wrap 3 fresh = wrap_sys_excepthook fresh /\
  sys_excepthook (fst (repeat_wrap 3 fresh)) = BdbQuit_excepthook /\
  excepthook_ori (fst (repeat_wrap 3 fresh)) = Some (OtherHook 0) /\
  interception_layers (fst (repeat_wrap 3 fresh)) = Some 1 /\
  dispatch_uncaught (fst (repeat_wrap 3 fresh)) KeyboardInterrupt =
    HandledBy (OtherHook 0).
Proof.
  assert (L : 1 <= 3) by lia.
  assert (N : sys_excepthook fresh <> BdbQuit_excepthook) by discriminate.
  destruct (C1_wrap_sys_excepthook_idempotent 3 fresh L) as (A & _ & B & C & D).
  destruct (C (or_introl N)) as [_ C'].
  destruct (D N) as [D1 D2].
  split; [exact L|]. split; [exact A|]. split; [exact B|].
  split; [exact D1|]. split; [exact C'|].
  apply D2. discriminate.
Defined.

(** C2, as stated, fails: [run] returns with the interpreter's own hook
    still in place, and has built its instance under it; and [set_trace],
    with an instance that has a shell, returns with the hook the shell had
    saved (here the interpreter's own), the guard's sentinel having been in
    place only in between. *)
Lemma C2_counterexample :
  let r := run "Linux" demo_exec_lines true demo_pdbrc true "x = 1" (ret "")
             fresh in
  let t := set_trace "Linux" demo_exec_lines true demo_pdbrc true (OtherHook 0)
             None 3 fresh in
  snd r = Ret tt /\
  sys_excepthook (fst r) = OtherHook 0 /\
  Hook_eqb (sys_excepthook (fst r)) BdbQuit_excepthook = false /\
  log (fst r) = [Engine (OtherHook 0) (New (Some 3%Z));
                 Engine (OtherHook 0) (Run "x = 1")] /\
  snd t = Ret tt /\
  sys_excepthook (fst t) = OtherHook 0 /\
  Hook_eqb (sys_excepthook (fst t)) BdbQuit_excepthook = false /\
  log (fst t) = [Engine BdbQuit_excepthook (New (Some 3%Z));
                 Engine BdbQuit_excepthook (SetTrace 7);
                 Engine BdbQuit_excepthook RestoreSysModuleState].
Proof. vm_compute. repeat split. Qed.

(** C3, as stated, fails: the script exits with status 3, the status is
    printed, and the loop goes on: the script is executed a second time
    (and the user quits there). *)
Lemma C3_counterexample :
  let r := main "Linux" demo_exec_lines true demo_pdbrc true
             [Raised exit3; Completed true] fresh in
  snd (loop_body "dir/s.py" pdb0 (Raised exit3) fresh) = Ret Continue /\
  snd r = Ret tt /\
  log (fst r) =
    [Engine (OtherHook 0) (New (Some 3%Z));
     Engine (OtherHook 0) (Runscript "dir/s.py");
     Write stdout "The program exited via sys.exit(). Exit status: ";
     Write stdout ("3" ++ nl)%string;
     Engine (OtherHook 0) (Runscript "dir/s.py")] /\
  executions (log (fst r)) = 2.
Proof. vm_compute. repeat split. Qed.

Lemma C3_witness :
  is_SystemExit (exc_class exit3) = true /\
  snd (loop_body "dir/s.py" pdb0 (Raised exit3) fresh) = Ret Continue /\
  main_loop "dir/s.py" pdb0 [Raised exit3; Completed true] fresh =
    main_loop "dir/s.py" pdb0 [Completed true]
      (add_log [Engine (OtherHook 0) (Runscript "dir/s.py");
                Write stdout "The program exited via sys.exit(). Exit status: ";
                Write stdout ("3" ++ nl)%string] fresh).
Proof.
  assert (S : is_SystemExit (exc_class exit3) = true) by reflexivity.
  destruct (C3_program_exit_restarts "dir/s.py" pdb0 exit3 [Completed true]
              fresh S) as (A & _ & B & _).
  split; [exact S|]. split; [now rewrite A|exact B].
Defined.

(** C4, as stated, fails when the engine has read a .pdbrc file: its line
    comes first. *)
Lemma C4_counterexample :
  let r := _init_pdb "Linux" demo_exec_lines true demo_pdbrc true 3
             ["continue"] fresh in
  snd r = Ret (mkPdb "Linux" (Some 3%Z)
                     [alias_line; ("import os" ++ nl)%string; "continue"] true) /\
  def_exec_lines demo_exec_lines ++ ["continue"] =
    [("import os" ++ nl)%string; "continue"] /\
  same_lines [alias_line; ("import os" ++ nl)%string; "continue"]
             (def_exec_lines demo_exec_lines ++ ["continue"]) = false.
Proof. vm_compute. repeat split. Qed.

Lemma C4_witness :
  (1 <= 3)%Z /\
  exists w' p,
    _init_pdb "Linux" demo_exec_lines true demo_pdbrc true 3 ["continue"] fresh =
      (w', Ret p) /\
    rcLines p = [alias_line; ("import os" ++ nl)%string; "continue"].
Proof.
  assert (L : (1 <= 3)%Z) by lia.
  split; [exact L|].
  destruct (C4_init_pdb_rcLines "Linux" demo_exec_lines true demo_pdbrc true 3
              ["continue"] fresh L) as (w' & p & A & B & _).
  exists w', p. split; [exact A|exact B].
Defined.

(** C5, for a division by zero on the first line of the script. *)
Lemma C5_witness :
  is_Restart (exc_class zero_division) = false /\
  is_SystemExit (exc_class zero_division) = false /\
  loop_body "dir/s.py" pdb0 (Raised zero_division) fresh =
    (add_log
       [Engine (OtherHook 0) (Runscript "dir/s.py");
        PrintExc zero_division;
        Write stdout ("Uncaught exception. Entering post mortem debugging" ++ nl)%string;
        Write stdout ("Running 'cont' or 'step' will restart the program" ++ nl)%string;
        Engine (OtherHook 0) (Interaction 12);
        Write stdout ("Post mortem debugger finished. The dir/s.py will be restarted"
                      ++ nl)%string]
       fresh,
     Ret Continue).
Proof.
  assert (R : is_Restart (exc_class zero_division) = false) by reflexivity.
  assert (S : is_SystemExit (exc_class zero_division) = false) by reflexivity.
  destruct (C5_uncaught_exception_post_mortem "dir/s.py" pdb0 zero_division []
              fresh R S) as (A & _).
  split; [exact R|]. split; [exact S|exact A].
Defined.

(** C6, as stated, fails for an exception outside Exception: a
    KeyboardInterrupt raised in the block leaves the scope, nothing is
    printed and no post-mortem takes place. *)
Lemma C6_counterexample :
  let out := launch_ipdb_on_exception "Linux" demo_exec_lines true demo_pdbrc
               true (raise keyboard_interrupt) fresh in
  is_Exception (exc_class keyboard_interrupt) = false /\
  snd out = Raise keyboard_interrupt /\
  log (fst out) = [] /\
  fst out = fresh.
Proof. vm_compute. repeat split. Qed.

(** C6, for a block that raises ValueError("x"). *)
Lemma C6_witness :
  let out := launch_ipdb_on_exception "Linux" demo_exec_lines true demo_pdbrc
               true (raise value_error_x) fresh in
  (raise value_error_x : M unit) fresh = (fresh, Raise value_error_x) /\
  snd out = Ret tt /\
  log (fst out) =
    [Write stderr ("ValueError('x')" ++ nl)%string;
     Engine BdbQuit_excepthook (New (Some 3%Z));
     Engine BdbQuit_excepthook Reset;
     Engine BdbQuit_excepthook (Interaction 13)].
Proof.
  assert (B : (raise value_error_x : M unit) fresh = (fresh, Raise value_error_x))
    by reflexivity.
  pose proof (C6_launch_ipdb_on_exception "Linux" demo_exec_lines true
                demo_pdbrc true _ _ _ _ B) as H.
  cbv zeta in H. cbn [is_Exception exc_class value_error_x] in H.
  destruct H as (H1 & H2 & _).
  cbv zeta. split; [exact B|]. split; [exact H1|]. rewrite H2. reflexivity.
Defined.

(** C7, in a fresh process. *)
Lemma C7_witness :
  let r := post_mortem "Linux" demo_exec_lines true demo_pdbrc true None fresh in
  exc_info fresh = None /\
  snd r = Ret tt /\
  log (fst r) = [Engine BdbQuit_excepthook (New (Some 3%Z));
                 Engine BdbQuit_excepthook Reset].
Proof.
  assert (N : exc_info fresh = None) by reflexivity.
  destruct (C7_post_mortem_without_traceback "Linux" demo_exec_lines true
              demo_pdbrc true fresh N) as (A & B & _).
  cbv zeta. split; [exact N|]. split; [exact A|]. rewrite B. reflexivity.
Defined.

(** C8, as stated, fails for [python -m ipdb -h]: the usage text is
    printed and the status is 2. *)
Lemma C8_counterexample :
  let w := with_argv ["/site/ipdb/__main__.py"; "-h"] in
  let r := main "Linux" demo_exec_lines true demo_pdbrc true [] w in
  parse w = inr ([("-h", "")], []) /\
  log (fst r) = [Write stdout (_usage ++ nl)%string] /\
  snd r = Raise (system_exit (Some 2%Z)) /\
  exit_status (snd r) = Some 2%Z.
Proof. vm_compute. repeat split. Qed.

(** C8, for [python -m ipdb -c continue -h dir/s.py]. *)
Lemma C8_witness :
  let w := with_argv ["/site/ipdb/__main__.py"; "-c"; "continue"; "-h"; "dir/s.py"] in
  let r := main "Linux" demo_exec_lines true demo_pdbrc true [] w in
  parse w = inr ([("-c", "continue"); ("-h", "")], ["dir/s.py"]) /\
  existsb is_help [("-c", "continue"); ("-h", "")] = true /\
  log (fst r) = [Write stdout (_usage ++ nl)%string] /\
  exit_status (snd r) = Some 0%Z.
Proof.
  cbv zeta.
  assert (P : parse (with_argv ["/site/ipdb/__main__.py"; "-c"; "continue";
                                "-h"; "dir/s.py"]) =
              inr ([("-c", "continue"); ("-h", "")], ["dir/s.py"]))
    by reflexivity.
  assert (H : existsb is_help [("-c", "continue"); ("-h", "")] = true)
    by reflexivity.
  destruct (C8_help_exit_status "Linux" demo_exec_lines true demo_pdbrc true
              [] _ _ _ P H) as (A & B).
  split; [exact P|]. split; [exact H|]. split; [exact A|exact B].
Defined.

(** C9, as stated, fails: the script's directory takes the place of
    ipdb's directory at the head of the path; it is not put in front of
    it, and the path has two entries as before. *)
Lemma C9_counterexample :
  let r := main "Linux" demo_exec_lines true demo_pdbrc true [Completed true]
             fresh in
  snd r = Ret tt /\
  sys_argv (fst r) = ["dir/s.py"; "a"] /\
  sys_path fresh = ["/site/ipdb"; "/usr/lib/python3"] /\
  sys_path (fst r) = ["dir"; "/usr/lib/python3"] /\
  same_lines (sys_path (fst r)) ("dir" :: sys_path fresh) = false.
Proof. vm_compute. repeat split. Qed.

(** C9, for [python -m ipdb -c continue dir/s.py a]. *)
Lemma C9_witness :
  parse fresh = inr ([("-c", "continue")], ["dir/s.py"; "a"]) /\
  existsb is_help [("-c", "continue")] = false /\
  existsb (String.eqb "dir/s.py") (files fresh) = true /\
  sys_path fresh = ["/site/ipdb"; "/usr/lib/python3"] /\
  exists w' pdb,
    main "Linux" demo_exec_lines true demo_pdbrc true [Completed true] fresh =
      main_loop "dir/s.py" pdb [Completed true] w' /\
    sys_argv w' = ["dir/s.py"; "a"] /\
    sys_path w' = ["dir"; "/usr/lib/python3"] /\
    rcLines pdb = [alias_line; ("import os" ++ nl)%string; "continue"].
Proof.
  assert (P : parse fresh = inr ([("-c", "continue")], ["dir/s.py"; "a"]))
    by reflexivity.
  assert (H : existsb is_help [("-c", "continue")] = false) by reflexivity.
  assert (F : existsb (String.eqb "dir/s.py") (files fresh) = true)
    by reflexivity.
  assert (S : sys_path fresh = ["/site/ipdb"; "/usr/lib/python3"])
    by reflexivity.
  destruct (C9_setup_argv_and_path "Linux" demo_exec_lines true demo_pdbrc true
              [Completed true] fresh _ _ _ _ _ P H F S)
    as (w' & pdb & _ & A & B & C & _ & _ & D).
  split; [exact P|]. split; [exact H|]. split; [exact F|]. split; [exact S|].
  exists w', pdb. split; [exact A|]. split; [exact B|].
  split; [exact C|exact D].
Defined.

(** * Beyond the claims *)

(** ** import_module *)

(** ImportError and its subclass ModuleNotFoundError, among the other
    subclasses of Exception. *)
Definition is_ImportError (c : ExcClass) : bool :=
  match c with
  | OtherException name =>
      String.eqb name "ImportError" || String.eqb name "ModuleNotFoundError"
  | _ => false
  end.

Section ImportModule.

Variable Module_ : Type.
(** What [__import__(module, fromlist=[needed_module])] comes to: the
    module object, or the exception it raises.  It is the same whenever it
    is asked during one call of [import_module]. *)
Variable importer : string -> string -> Exn + Module_.

Definition import_ (module needed_module : string) : M Module_ :=
  match importer module needed_module with
  | inl e => raise e
  | inr m => ret m
  end.

(** How one turn of the [for] loop ends: by [return], or with the
    decremented [count] for the next turn. *)
Inductive ImportStep : Type :=
| Return (m : Module_)
| Next (count : Z).

Fixpoint import_module_loop (modules : list string) (needed_module : string)
    (count : Z) : M (option Module_) :=
  match modules with
  | [] => ret None                         (* the loop is over: None *)
  | module :: modules =>
      step <- try_except
                (m <- import_ module needed_module ;; ret (Return m))
                is_ImportError
                (fun e =>
                   let count := (count - 1)%Z in
                   if (count =? 0)%Z then raise e else ret (Next count)) ;;
      match step with
      | Return m => ret (Some m)
      | Next count => import_module_loop modules needed_module count
      end
  end.

Definition import_module (possible_modules : list string)
    (needed_module : string) : M (option Module_) :=
  import_module_loop possible_modules needed_module
    (Z.of_nat (List.length possible_modules)).

(** The module cannot be imported: asking for it raises an ImportError. *)
Definition not_importable (needed_module module : string) : Prop :=
  exists e, importer module needed_module = inl e /\
            is_ImportError (exc_class e) = true.

Lemma set_exc_info_back (x : option Exn) (w : World) :
  set_exc_info (exc_info w) (set_exc_info x w) = w.
Proof. destruct w. reflexivity. Qed.

(** A turn for a module that cannot be imported, while more than one
    attempt is left: the loop goes on with one attempt less. *)
Lemma import_module_loop_skip (module : string) (modules : list string)
    (needed_module : string) (count : Z) (w : World) :
  not_importable needed_module module ->
  (count <> 1)%Z ->
  import_module_loop (module :: modules) needed_module count w =
    import_module_loop modules needed_module (count - 1) w.
Proof.
  intros (e & E & I) C. cbn [import_module_loop].
  unfold bind at 1, try_except, bind at 1, import_. rewrite E.
  unfold raise at 1. rewrite I.
  destruct (Z.eqb_spec (count - 1) 0) as [Z0|_]; [lia|].
  unfold ret at 1. now rewrite set_exc_info_back.
Qed.

Lemma import_module_loop_prefix (pre rest : list string)
    (needed_module : string) (count : Z) (w : World) :
  Forall (not_importable needed_module) pre ->
  (Z.of_nat (List.length pre) < count)%Z ->
  import_module_loop (pre ++ rest) needed_module count w =
    import_module_loop rest needed_module (count - Z.of_nat (List.length pre)) w.
Proof.
  revert count. induction pre as [|m pre IH]; intros count F L.
  - cbn. now rewrite Z.sub_0_r.
  - inversion F as [|? ? Fm Fpre]; subst. cbn [app].
    cbn [List.length] in L |- *. rewrite Nat2Z.inj_succ in L |- *.
    rewrite import_module_loop_skip by (assumption || lia).
    rewrite IH by (assumption || lia). f_equal. lia.
Qed.

(** X1. [import_module] gives the first module of the list that does not
    fail with an ImportError: it returns it when it can be imported, and
    lets its exception through when it fails otherwise; the modules after
    it are not tried and the world is left as it was. *)
Theorem X1_import_module_first (pre : list string) (module : string)
    (post : list string) (needed_module : string) (w : World) :
  Forall (not_importable needed_module) pre ->
  match importer module needed_module with
  | inr m =>
      import_module (pre ++ module :: post) needed_module w = (w, Ret (Some m))
  | inl e =>
      is_ImportError (exc_class e) = false ->
      import_module (pre ++ module :: post) needed_module w = (w, Raise e)
  end.
Proof.
  intros F. unfold import_module.
  assert (L : (Z.of_nat (List.length pre) <
               Z.of_nat (List.length (pre ++ module :: post)))%Z).
  { rewrite length_app. cbn [List.length]. lia. }
  destruct (importer module needed_module) as [e|m] eqn:E.
  - intros I. rewrite (import_module_loop_prefix pre _ _ _ w F L).
    cbn [import_module_loop].
    unfold bind at 1, try_except, bind at 1, import_. rewrite E.
    unfold raise at 1. now rewrite I.
  - rewrite (import_module_loop_prefix pre _ _ _ w F L).
    cbn [import_module_loop].
    unfold bind at 1, try_except, bind at 1, import_. now rewrite E.
Qed.

(** X2. When no module of the list can be imported, [import_module] raises
    the ImportError of the last one (the counter reaches 0 exactly there);
    with an empty list it raises nothing and returns None. *)
Theorem X2_import_module_none (pre : list string) (module : string)
    (needed_module : string) (e : Exn) (w : World) :
  Forall (not_importable needed_module) pre ->
  importer module needed_module = inl e ->
  is_ImportError (exc_class e) = true ->
  import_module (pre ++ [module]) needed_module w = (w, Raise e) /\
  import_module [] needed_module w = (w, Ret None).
Proof.
  intros F E I. split; [|reflexivity]. unfold import_module.
  assert (L : (Z.of_nat (List.length pre) <
               Z.of_nat (List.length (pre ++ [module])))%Z).
  { rewrite length_app. cbn [List.length]. lia. }
  rewrite (import_module_loop_prefix pre _ _ _ w F L).
  rewrite length_app. cbn [List.length import_module_loop].
  unfold bind at 1, try_except, bind at 1, import_. rewrite E.
  unfold raise at 1. rewrite I.
  destruct (Z.eqb_spec (Z.of_nat (List.length pre + 1) -
                        Z.of_nat (List.length pre) - 1) 0) as [_|N]; [|lia].
  unfold raise. now rewrite set_exc_info_back.
Qed.

End ImportModule.

(** ** The factory, the guard and the entry points together *)

(** A call of one of the entry points that run the guard. *)
Inductive EntryCall : Type :=
| CallSetTrace (frame : option Frame) (context : Z)
| CallPostMortem (tb : option Traceback)
| CallPm.

Section Beyond.

Variable def_colors : string.
Variable exec_lines : list string.
Variable accepts_context : bool.
Variable pdbrc_lines : list string.
Variable engine_has_shell : bool.
Variable shell_saved_hook : Hook.

Local Abbreviation init_pdb :=
  (_init_pdb def_colors exec_lines accepts_context pdbrc_lines engine_has_shell).
Local Abbreviation set_trace_ :=
  (set_trace def_colors exec_lines accepts_context pdbrc_lines engine_has_shell
     shell_saved_hook).
Local Abbreviation post_mortem_ :=
  (post_mortem def_colors exec_lines accepts_context pdbrc_lines engine_has_shell).
Local Abbreviation pm_ :=
  (pm def_colors exec_lines accepts_context pdbrc_lines engine_has_shell).
Local Abbreviation launch :=
  (launch_ipdb_on_exception def_colors exec_lines accepts_context pdbrc_lines
     engine_has_shell).

(** The world after the call, whether it returned or raised. *)
Definition after_call (c : EntryCall) (w : World) : World :=
  match c with
  | CallSetTrace frame context => fst (set_trace_ frame context w)
  | CallPostMortem tb => fst (post_mortem_ tb w)
  | CallPm => fst (pm_ w)
  end.

Definition after_calls (cs : list EntryCall) (w : World) : World :=
  fold_left (fun w c => after_call c w) cs w.

(** The guard's state is sound: the recorded original is not the sentinel
    (no cycle), and there is one whenever the sentinel is the hook. *)
Definition guard_sound (w : World) : Prop :=
  excepthook_ori w <> Some BdbQuit_excepthook /\
  (sys_excepthook w = BdbQuit_excepthook -> excepthook_ori w <> None).

(** A hook other than the sentinel is recorded as the original. *)
Definition original_recorded (w : World) : Prop :=
  exists i, excepthook_ori w = Some (OtherHook i).

Lemma guarded_ori (w : World) :
  excepthook_ori (guarded w) =
    if Hook_eqb (sys_excepthook w) BdbQuit_excepthook
    then excepthook_ori w else Some (sys_excepthook w).
Proof.
  unfold guarded, wrap_sys_excepthook.
  destruct (Hook_eqb (sys_excepthook w) BdbQuit_excepthook); reflexivity.
Qed.

Lemma pm_eq (w : World) :
  pm_ w =
    match last_traceback w with
    | Some t => post_mortem_ (Some t) w
    | None =>
        (w, Raise (new_exn AttributeError
                     ["module 'sys' has no attribute 'last_traceback'"]))
    end.
Proof.
  unfold pm, bind, gets. destruct (last_traceback w); reflexivity.
Qed.

Lemma original_recorded_sound (w : World) : original_recorded w -> guard_sound w.
Proof. intros [i E]. unfold guard_sound. rewrite E. split; discriminate. Qed.

(** Once the guard has run from a sound state, a hook other than the
    sentinel is the recorded original. *)
Lemma guarded_recorded (w : World) : guard_sound w -> original_recorded (guarded w).
Proof.
  intros [S1 S2]. unfold original_recorded. rewrite guarded_ori.
  destruct (Hook_eqb_spec (sys_excepthook w) BdbQuit_excepthook) as [E|N].
  - specialize (S2 E). destruct (excepthook_ori w) as [[|i]|].
    + now contradiction S1.
    + now exists i.
    + now contradiction S2.
  - destruct (sys_excepthook w) as [|i]; [now contradiction N|now exists i].
Qed.

Lemma after_call_sound (c : EntryCall) (w : World) :
  guard_sound w -> guard_sound (after_call c w).
Proof.
  intros S. pose proof (guarded_recorded w S) as R.
  destruct c as [frame context|tb|]; cbn [after_call].
  - destruct (constructs accepts_context context) eqn:C.
    + rewrite (set_trace_eq _ _ _ _ _ _ _ _ _ C). cbn [fst].
      apply original_recorded_sound. unfold restored, original_recorded.
      destruct engine_has_shell; exact R.
    + rewrite (set_trace_raises _ _ _ _ _ _ _ _ _ C). cbn [fst].
      now apply original_recorded_sound.
  - rewrite post_mortem_eq. cbn [fst]. now apply original_recorded_sound.
  - rewrite pm_eq. destruct (last_traceback w); [|exact S].
    rewrite post_mortem_eq. cbn [fst]. now apply original_recorded_sound.
Qed.

Lemma after_calls_sound (cs : list EntryCall) :
  forall w, guard_sound w -> guard_sound (after_calls cs w).
Proof.
  induction cs as [|c cs IH]; intros w S; [exact S|].
  cbn [after_calls fold_left]. apply IH. now apply after_call_sound.
Qed.


(** X4. While an exception is being handled, [post_mortem] without a
    traceback does what it does with that exception's traceback: it enters
    one interactive session there. *)
Theorem X4_post_mortem_handled_exception (e : Exn) (w : World) :
  exc_info w = Some e ->
  post_mortem_ None w = post_mortem_ (Some (exc_tb e)) w /\
  snd (post_mortem_ None w) = Ret tt /\
  log (fst (post_mortem_ None w)) =
    log w ++ [Engine BdbQuit_excepthook
                (New (if accepts_context then Some 3%Z else None));
              Engine BdbQuit_excepthook Reset;
              Engine BdbQuit_excepthook (Interaction (exc_tb e))] /\
  sessions (log (fst (post_mortem_ None w))) = sessions (log w) + 1.
Proof.
  intros H. rewrite !post_mortem_eq, H. cbn [option_map fst snd add_log log].
  rewrite guarded_log. unfold post_mortem_events, built_context.
  repeat split. unfold sessions. rewrite filter_app, length_app.
  reflexivity.
Qed.

(** X5. The guard's state stays sound through any sequence of calls of
    [set_trace], [post_mortem] and [pm], whatever hook the shell puts back
    at the end of [set_trace] and also when a call raises: the recorded
    original is never the sentinel, so there is no cycle; an uncaught
    exception goes through at most one interception layer, and one other
    than the debugger's quit ends at a hook that is not the sentinel. *)
Theorem X5_entry_points_keep_guard_sound (cs : list EntryCall) (w : World) :
  guard_sound w ->
  let w' := after_calls cs w in
  guard_sound w' /\
  (exists n, interception_layers w' = Some n /\ n <= 1) /\
  forall c, c <> BdbQuit ->
    exists i, dispatch_uncaught w' c = HandledBy (OtherHook i).
Proof.
  intros S. cbv zeta. pose proof (after_calls_sound cs w S) as [S1 S2].
  split; [split; assumption|].
  unfold interception_layers, dispatch_uncaught.
  destruct (sys_excepthook (after_calls cs w)) as [|j].
  - specialize (S2 eq_refl).
    destruct (excepthook_ori (after_calls cs w)) as [[|i]|].
    + now contradiction S1.
    + split; [exists 1; split; [reflexivity|lia]|].
      intros c Hc. exists i. destruct c; try reflexivity. now contradiction Hc.
    + now contradiction S2.
  - split; [exists 0; split; [reflexivity|lia]|].
    intros c _. now exists j.
Qed.

(** The handler of [launch_ipdb_on_exception] always ends normally. *)
Lemma launch_outcome (body : M unit) (w : World) :
  match body w with
  | (w1, Raise e) =>
      if is_Exception (exc_class e)
      then snd (launch body w) = Ret tt
      else launch body w = (w1, Raise e)
  | other => launch body w = other
  end.
Proof.
  unfold launch_ipdb_on_exception, try_except.
  destruct (body w) as [w1 [u|e|]]; try reflexivity.
  destruct (is_Exception (exc_class e)); [|reflexivity].
  unfold bind, gets, print_to, modify.
  cbn [exc_info set_exc_info option_map]. rewrite post_mortem_eq. reflexivity.
Qed.

(** X7. A scope inside a scope adds nothing: the inner one has dealt with
    whatever the outer one would catch. *)
Theorem X7_launch_nested (body : M unit) (w : World) :
  launch (launch body) w = launch body w.
Proof.
  pose proof (launch_outcome body w) as O.
  unfold launch_ipdb_on_exception at 1. unfold try_except.
  destruct (body w) as [w1 [u|e|]].
  - rewrite O. reflexivity.
  - destruct (is_Exception (exc_class e)) eqn:I.
    + destruct (launch body w) as [w2 r]. cbn [snd] in O. subst r. reflexivity.
    + rewrite O, I. reflexivity.
  - rewrite O. reflexivity.
Qed.

End Beyond.

(** ** The runner's loop as a whole *)

(** The run ends with the user's quit. *)
Definition is_quit (r : ScriptRun) : bool :=
  match r with
  | Completed true => true
  | _ => false
  end.

(** The run ends with an exception that is neither a restart request nor
    SystemExit. *)
Definition crashed (r : ScriptRun) : bool :=
  match r with
  | Raised e => negb (is_Restart (exc_class e)) && negb (is_SystemExit (exc_class e))
  | _ => false
  end.

(** The runs that take place: those up to the first one that ends with the
    user's quit, that one included. *)
Fixpoint consumed (runs : list ScriptRun) : list ScriptRun :=
  match runs with
  | [] => []
  | r :: runs => r :: (if is_quit r then [] else consumed runs)
  end.

Lemma turn_ctl_quit (r : ScriptRun) :
  turn_ctl r = if is_quit r then Break else Continue.
Proof. destruct r as [[|]|e]; reflexivity. Qed.

Lemma turn_events_add_log (mainpyfile : string) (r : ScriptRun)
    (evs : list Event) (w : World) :
  turn_events mainpyfile r (add_log evs w) = turn_events mainpyfile r w.
Proof. reflexivity. Qed.

Lemma sessions_app (a b : list Event) : sessions (a ++ b) = sessions a + sessions b.
Proof. unfold sessions. now rewrite filter_app, length_app. Qed.

Lemma executions_app (a b : list Event) :
  executions (a ++ b) = executions a + executions b.
Proof. unfold executions. now rewrite filter_app, length_app. Qed.

Lemma turn_events_sessions (mainpyfile : string) (r : ScriptRun) (w : World) :
  sessions (turn_events mainpyfile r w) = if crashed r then 1 else 0.
Proof.
  destruct r as [[|]|e]; try reflexivity. unfold turn_events, crashed.
  destruct (is_Restart (exc_class e)); [reflexivity|].
  destruct (is_SystemExit (exc_class e)); reflexivity.
Qed.

Lemma turn_events_executions (mainpyfile : string) (r : ScriptRun) (w : World) :
  executions (turn_events mainpyfile r w) = 1.
Proof.
  destruct r as [[|]|e]; try reflexivity. unfold turn_events.
  destruct (is_Restart (exc_class e)); [reflexivity|].
  destruct (is_SystemExit (exc_class e)); reflexivity.
Qed.

(** The whole loop in one equation: the world only gains log entries,
    those of the turns that take place and, when no run ends with the
    user's quit, the start of one more execution. *)
Lemma main_loop_eq (mainpyfile : string) (pdb : Pdb) (runs : list ScriptRun) :
  forall w,
    main_loop mainpyfile pdb runs w =
      (add_log (flat_map (fun r => turn_events mainpyfile r w) (consumed runs) ++
                if existsb is_quit runs then []
                else [Engine (sys_excepthook w) (Runscript mainpyfile)]) w,
       if existsb is_quit runs then Ret tt else Running).
Proof.
  induction runs as [|r runs IH]; intros w; [reflexivity|].
  rewrite main_loop_cons, turn_ctl_quit. cbn [existsb consumed flat_map].
  destruct (is_quit r).
  - cbn [orb flat_map]. now rewrite !app_nil_r.
  - cbn [orb]. rewrite IH, add_log_app. cbn [sys_excepthook add_log].
    now rewrite app_assoc.
Qed.


(** X9. Over the whole loop the script is executed once per run that takes
    place (and once more when no run has ended with the user's quit), and a
    post-mortem session is entered once for each of those runs that ended
    with an exception other than a restart request or SystemExit, and at no
    other time. *)
Theorem X9_main_loop_counts (mainpyfile : string) (pdb : Pdb)
    (runs : list ScriptRun) (w : World) :
  let w' := fst (main_loop mainpyfile pdb runs w) in
  sessions (log w') =
    sessions (log w) + List.length (filter crashed (consumed runs)) /\
  executions (log w') =
    executions (log w) + List.length (consumed runs) +
    (if existsb is_quit runs then 0 else 1).
Proof.
  cbv zeta. rewrite main_loop_eq. cbn [fst add_log log].
  rewrite !sessions_app, !executions_app.
  assert (S : forall l, sessions (flat_map (fun r => turn_events mainpyfile r w) l) =
                        List.length (filter crashed l)).
  { induction l as [|r l IH]; [reflexivity|].
    cbn [flat_map filter]. rewrite sessions_app, turn_events_sessions, IH.
    destruct (crashed r); reflexivity. }
  assert (E : forall l, executions (flat_map (fun r => turn_events mainpyfile r w) l) =
                        List.length l).
  { induction l as [|r l IH]; [reflexivity|].
    cbn [flat_map List.length]. now rewrite executions_app, turn_events_executions, IH. }
  rewrite S, E. destruct (existsb is_quit runs); cbn; lia.
Qed.

(** ** The runner before the loop *)

Section BeyondMain.

Variable def_colors : string.
Variable exec_lines : list string.
Variable accepts_context : bool.
Variable pdbrc_lines : list string.
Variable engine_has_shell : bool.

Local Abbreviation main_ :=
  (main def_colors exec_lines accepts_context pdbrc_lines engine_has_shell).
Local Abbreviation setup_ :=
  (setup def_colors exec_lines accepts_context pdbrc_lines engine_has_shell).

Lemma main_parse_error (runs : list ScriptRun) (w : World) (msg opt : string) :
  parse w = inl (msg, opt) ->
  main_ runs w = (w, Raise (new_exn GetoptError [msg; opt])).
Proof.
  intros P. unfold main. unfold bind at 1. unfold gets. cbn beta iota.
  unfold bind at 1, getopt. unfold parse in P. now rewrite P.
Qed.

Lemma main_missing_script (runs : list ScriptRun) (w : World)
    (opts : Getopt.Opts) (mainpyfile : string) (rest : list string) :
  parse w = inr (opts, mainpyfile :: rest) ->
  existsb is_help opts = false ->
  existsb (String.eqb mainpyfile) (files w) = false ->
  main_ runs w =
    (add_log [Write stdout ("Error: " ++ mainpyfile ++ " does not exist" ++ nl)%string] w,
     Raise (system_exit (Some 1%Z))).
Proof.
  intros P H F. rewrite (main_parsed _ _ _ _ _ runs w opts _ P).
  unfold bind at 1. rewrite (scan_opts_no_help opts [] w H).
  unfold bind at 1, path_exists, gets. rewrite F. cbn [negb].
  unfold print, print_to, modify, bind, sys_exit, raise.
  cbn [String.concat]. now rewrite !string_app_assoc.
Qed.

Lemma main_found_script (runs : list ScriptRun) (w : World)
    (opts : Getopt.Opts) (mainpyfile : string) (rest : list string) :
  parse w = inr (opts, mainpyfile :: rest) ->
  existsb is_help opts = false ->
  existsb (String.eqb mainpyfile) (files w) = true ->
  main_ runs w =
    (pdb <- setup_ (mainpyfile :: rest) mainpyfile (commands_of opts) ;;
     main_loop mainpyfile pdb runs) w.
Proof.
  intros P H F. rewrite (main_parsed _ _ _ _ _ runs w opts _ P).
  unfold bind at 1. rewrite (scan_opts_no_help opts [] w H).
  unfold bind at 1, path_exists, gets. rewrite F. reflexivity.
Qed.

(** X11. A command line without a script: whatever its options, [main]
    prints the usage text, the process exits with status 2, and nothing
    else has happened (no debugger is built, the argument list and the
    search path are as before). *)
Theorem X11_main_without_script (runs : list ScriptRun) (w : World)
    (opts : Getopt.Opts) :
  parse w = inr (opts, []) ->
  main_ runs w =
    (add_log [Write stdout (_usage ++ nl)%string] w,
     Raise (system_exit (Some 2%Z))) /\
  exit_status (snd (main_ runs w)) = Some 2%Z.
Proof.
  intros P. rewrite (main_parsed _ _ _ _ _ runs w opts _ P). split; reflexivity.
Qed.

(** X12. A script path that does not exist (and no help flag): [main]
    prints the line "Error: <path> does not exist", the process exits with
    status 1, and nothing else has happened: no debugger is built and the
    script is never executed. *)
Theorem X12_main_missing_script (runs : list ScriptRun) (w : World)
    (opts : Getopt.Opts) (mainpyfile : string) (rest : list string) :
  parse w = inr (opts, mainpyfile :: rest) ->
  existsb is_help opts = false ->
  existsb (String.eqb mainpyfile) (files w) = false ->
  let r := main_ runs w in
  written stdout (log (fst r)) =
    written stdout (log w) ++
    [("Error: " ++ mainpyfile ++ " does not exist" ++ nl)%string] /\
  exit_status (snd r) = Some 1%Z /\
  executions (log (fst r)) = executions (log w) /\
  sys_argv (fst r) = sys_argv w /\
  sys_path (fst r) = sys_path w.
Proof.
  intros P H F. cbv zeta.
  rewrite (main_missing_script runs w opts mainpyfile rest P H F).
  cbn [fst snd add_log log sys_argv sys_path].
  rewrite executions_app. cbn [executions filter List.length].
  split; [|repeat split; lia].
  induction (log w) as [|ev l IH]; [reflexivity|].
  cbn [app written]. destruct ev as [[|] text| |]; now rewrite ?IH.
Qed.

End BeyondMain.

(** ** The command line [main] accepts *)

Definition main_shortopts : string := "hc:".
Definition main_longopts : list string := ["--help"; "--command="].

(** The option names [getopt] can give back with these declarations. *)
Definition known_option (o : string * string) : Prop :=
  In (fst o) ["-h"; "-c"; "----help"; "----command"].

Lemma substring_all (s : string) : substring 0 (String.length s) s = s.
Proof. induction s as [|c s IH]; cbn; [reflexivity|now rewrite IH]. Qed.

Lemma drop_2 (a b : ascii) (x : string) :
  Getopt.drop 2 (String a (String b x)) = x.
Proof.
  unfold Getopt.drop. cbn [String.length Nat.sub substring].
  rewrite Nat.sub_0_r. apply substring_all.
Qed.

Lemma drop_1 (a : ascii) (x : string) : Getopt.drop 1 (String a x) = x.
Proof.
  unfold Getopt.drop. cbn [String.length Nat.sub substring].
  rewrite Nat.sub_0_r. apply substring_all.
Qed.

Lemma split_eq_no_eq (s : string) : contains "=" (fst (Getopt.split_eq s)) = false.
Proof.
  induction s as [|c s IH]; [reflexivity|]. cbn [Getopt.split_eq].
  destruct (Ascii.eqb_spec c "=") as [->|N]; [reflexivity|].
  destruct (Getopt.split_eq s) as [a b]. cbn [fst contains] in *.
  rewrite IH. destruct (Ascii.eqb_spec c "="); [contradiction|reflexivity].
Qed.

Lemma contains_app_last (c : ascii) (s : string) :
  contains c (s ++ String c "")%string = true.
Proof.
  induction s as [|x s IH]; cbn; [now rewrite Ascii.eqb_refl|].
  rewrite IH. apply orb_true_r.
Qed.

Lemma append_last_inj (c : ascii) (a b : string) :
  (a ++ String c "")%string = (b ++ String c "")%string -> a = b.
Proof.
  revert b. induction a as [|x a IH]; intros [|y b] H; cbn in H.
  - reflexivity.
  - inversion H as [[H1 H2]]. destruct b; discriminate.
  - inversion H as [[H1 H2]]. destruct a; discriminate.
  - inversion H as [[H1 H2]]. f_equal. now apply IH.
Qed.

Lemma short_has_arg_main (c : ascii) (b : bool) :
  Getopt.short_has_arg c main_shortopts = Some b ->
  (c = "h"%char /\ b = false) \/ (c = "c"%char /\ b = true).
Proof.
  unfold main_shortopts. cbn [Getopt.short_has_arg].
  destruct (Ascii.eqb_spec c "h") as [->|_]; cbn.
  - intros H. inversion H. now left.
  - destruct (Ascii.eqb_spec c "c") as [->|_]; cbn.
    + intros H. inversion H. now right.
    + destruct (Ascii.eqb c ":"); cbn; discriminate.
Qed.

(** A long option that [getopt] accepts with the declarations of [main]
    is one of the two declared names, dashes included. *)
Lemma long_has_args_main (o : string) (b : bool) (o' : string) :
  contains "=" o = false ->
  Getopt.long_has_args o main_longopts = inr (b, o') ->
  o' = "--help" \/ o' = "--command".
Proof.
  intros NE. unfold Getopt.long_has_args, main_longopts. cbn [filter].
  assert (A : forall l, Getopt.mem (o ++ "=")%string l = true ->
                        (forall x, In x l -> x = "--help" \/ x = "--command=") ->
                        o = "--command").
  { intros l M K. unfold Getopt.mem in M. apply existsb_exists in M.
    destruct M as (x & Ix & Ex). apply String.eqb_eq in Ex.
    destruct (K x Ix) as [->| ->].
    - pose proof (contains_app_last "=" o) as C. rewrite Ex in C. discriminate.
    - apply (append_last_inj "="). exact Ex. }
  assert (B : forall l, Getopt.mem o l = true ->
                        (forall x, In x l -> x = "--help" \/ x = "--command=") ->
                        o = "--help").
  { intros l M K. unfold Getopt.mem in M. apply existsb_exists in M.
    destruct M as (x & Ix & Ex). apply String.eqb_eq in Ex. subst x.
    destruct (K o Ix) as [E|E]; [exact E|].
    rewrite E in NE. discriminate. }
  destruct (Getopt.startswith "--help" o), (Getopt.startswith "--command=" o).
  - destruct (Getopt.mem o ["--help"; "--command="]) eqn:M1.
    + intros H. inversion H; subst. left. apply (B _ M1).
      intros x [<-|[<-|[]]]; auto.
    + destruct (Getopt.mem (o ++ "=") ["--help"; "--command="]) eqn:M2;
        [|discriminate].
      intros H. inversion H; subst. right. apply (A _ M2).
      intros x [<-|[<-|[]]]; auto.
  - destruct (Getopt.mem o ["--help"]) eqn:M1.
    + intros H. inversion H; subst. left. apply (B _ M1).
      intros x [<-|[]]; auto.
    + destruct (Getopt.mem (o ++ "=") ["--help"]) eqn:M2.
      * exfalso. unfold Getopt.mem in M2. cbn in M2.
        rewrite orb_false_r in M2. apply String.eqb_eq in M2.
        pose proof (contains_app_last "=" o) as C. rewrite M2 in C. discriminate.
      * cbn. intros H. inversion H. now left.
  - destruct (Getopt.mem o ["--command="]) eqn:M1.
    + exfalso. unfold Getopt.mem in M1. cbn in M1.
      rewrite orb_false_r in M1. apply String.eqb_eq in M1.
      rewrite M1 in NE. discriminate.
    + destruct (Getopt.mem (o ++ "=") ["--command="]) eqn:M2.
      * intros H. inversion H; subst. right.
        unfold Getopt.mem in M2. cbn in M2.
        rewrite orb_false_r in M2. apply String.eqb_eq in M2.
        apply (append_last_inj "="). exact M2.
      * cbn. intros H. inversion H. now right.
  - discriminate.
Qed.

Lemma do_shorts_known (optstring : string) :
  forall opts args opts' args',
    Forall known_option opts ->
    Getopt.do_shorts opts optstring main_shortopts args = inr (opts', args') ->
    Forall known_option opts'.
Proof.
  induction optstring as [|c optstring IH]; intros opts args opts' args' F H.
  - inversion H. now subst.
  - cbn [Getopt.do_shorts] in H.
    destruct (Getopt.short_has_arg c main_shortopts) as [b|] eqn:S; [|discriminate].
    assert (K : forall v, Forall known_option
                            (opts ++ [(("-" ++ String c "")%string, v)])).
    { intros v. apply Forall_app. split; [exact F|]. constructor; [|constructor].
      unfold known_option. cbn [fst].
      destruct (short_has_arg_main c b S) as [[-> _]|[-> _]]; cbn; auto. }
    destruct b.
    + destruct optstring; destruct args; inversion H; subst; apply K.
    + apply (IH _ _ _ _ (K _) H).
Qed.

Lemma do_longs_known (opts : Getopt.Opts) (opt : string) (args : list string)
    (opts' : Getopt.Opts) (args' : list string) :
  Forall known_option opts ->
  Getopt.do_longs opts opt main_longopts args = inr (opts', args') ->
  Forall known_option opts'.
Proof.
  intros F. unfold Getopt.do_longs.
  pose proof (split_eq_no_eq opt) as NE.
  destruct (Getopt.split_eq opt) as [o optarg]. cbn [fst] in NE.
  destruct (Getopt.long_has_args o main_longopts) as [err|[b o']] eqn:L;
    [discriminate|].
  assert (K : forall v, Forall known_option (opts ++ [(("--" ++ o')%string, v)])).
  { intros v. apply Forall_app. split; [exact F|]. constructor; [|constructor].
    unfold known_option. cbn [fst].
    destruct (long_has_args_main o b o' NE L) as [-> | ->]; cbn; auto. }
  destruct b.
  - destruct optarg; destruct args; intros H; inversion H; subst; apply K.
  - destruct optarg; intros H; inversion H; subst; apply K.
Qed.

Lemma getopt_loop_known (turns : nat) :
  forall opts args opts' args',
    Forall known_option opts ->
    Getopt.getopt_loop turns opts args main_shortopts main_longopts =
      Some (inr (opts', args')) ->
    Forall known_option opts'.
Proof.
  induction turns as [|turns IH]; intros opts args opts' args' F H.
  - destruct args as [|a rest]; cbn [Getopt.getopt_loop] in H.
    + inversion H. now subst.
    + destruct (Getopt.startswith a "-" && negb (a =? "-")%string).
      * destruct (a =? "--")%string; [|discriminate]. inversion H. now subst.
      * inversion H. now subst.
  - destruct args as [|a rest]; cbn [Getopt.getopt_loop] in H.
    + inversion H. now subst.
    + destruct (Getopt.startswith a "-" && negb (a =? "-")%string).
      * destruct (a =? "--")%string; [inversion H; now subst|].
        destruct (Getopt.startswith a "--").
        -- destruct (Getopt.do_longs opts (Getopt.drop 2 a) main_longopts rest)
             as [err|[o1 a1]] eqn:D; [discriminate|].
           apply (IH _ _ _ _ (do_longs_known _ _ _ _ _ F D) H).
        -- destruct (Getopt.do_shorts opts (Getopt.drop 1 a) main_shortopts rest)
             as [err|[o1 a1]] eqn:D; [discriminate|].
           apply (IH _ _ _ _ (do_shorts_known _ _ _ _ _ F D) H).
      * inversion H. now subst.
Qed.

(** X13. Whatever the command line, the options [main] gets from getopt
    are named -h, -c, ----help or ----command (four dashes): the names
    --help and --command that [main] also tests for never come back, since
    the long options are declared to getopt with their dashes. *)
Theorem X13_parsed_option_names (w : World) (opts : Getopt.Opts)
    (args : list string) :
  parse w = inr (opts, args) ->
  Forall known_option opts /\
  Forall (fun o => fst o <> "--help" /\ fst o <> "--command") opts.
Proof.
  intros P. unfold parse in P.
  pose proof (getopt_total (tl (sys_argv w)) "hc:" ["--help"; "--command="]) as T.
  rewrite P in T.
  assert (K : Forall known_option opts).
  { apply (getopt_loop_known _ [] _ _ _ (Forall_nil _) T). }
  split; [exact K|].
  apply (Forall_impl _ (P := known_option)); [|exact K].
  intros o [E|[E|[E|[E|[]]]]]; rewrite <- E; split; discriminate.
Qed.

Section BeyondParse.

Variable def_colors : string.
Variable exec_lines : list string.
Variable accepts_context : bool.
Variable pdbrc_lines : list string.
Variable engine_has_shell : bool.

Local Abbreviation main_ :=
  (main def_colors exec_lines accepts_context pdbrc_lines engine_has_shell).

(** X14. A first argument that starts with two dashes and is followed by
    anything but a third one (--help, --command=..., any long option) is
    not accepted: getopt raises GetoptError, [main] lets it through, and
    the process ends with status 1 without having printed anything. *)
Theorem X14_long_options_rejected (runs : list ScriptRun) (w : World)
    (prog : string) (c : ascii) (x : string) (rest : list string) :
  sys_argv w = prog :: ("--" ++ String c x)%string :: rest ->
  c <> "-"%char ->
  let o := fst (Getopt.split_eq (String c x)) in
  let msg := ("option --" ++ o ++
              (if Ascii.eqb c "=" then " not a unique prefix"
               else " not recognized"))%string in
  parse w = inl (msg, o) /\
  fst (main_ runs w) = w /\
  (exists e, snd (main_ runs w) = Raise e /\
             exc_class e = GetoptError /\ exc_str e = msg) /\
  exit_status (snd (main_ runs w)) = Some 1%Z.
Proof.
  intros A N. cbv zeta.
  assert (P : parse w =
              inl (("option --" ++ fst (Getopt.split_eq (String c x)) ++
                    (if Ascii.eqb c "=" then " not a unique prefix"
                     else " not recognized"))%string,
                   fst (Getopt.split_eq (String c x)))).
  { unfold parse. rewrite A. cbn [tl]. unfold Getopt.getopt.
    cbn [List.length Getopt.getopt_loop append].
    cbn [Getopt.startswith prefix String.eqb Ascii.eqb Bool.eqb andb negb].
    destruct (ascii_dec "-" "-") as [_|F]; [|now contradiction F].
    cbn [andb negb]. rewrite drop_2.
    unfold Getopt.do_longs. cbn [Getopt.split_eq].
    destruct (Ascii.eqb_spec c "=") as [->|NE].
    - reflexivity.
    - destruct (Getopt.split_eq x) as [a b]. cbn [fst].
      unfold Getopt.long_has_args. cbn [filter Getopt.startswith prefix].
      destruct (ascii_dec c "-") as [E|_]; [contradiction|]. reflexivity. }
  split; [exact P|].
  rewrite (main_parse_error _ _ _ _ _ runs w _ _ P).
  split; [reflexivity|]. split; [|reflexivity].
  eexists. repeat split.
Qed.

End BeyondParse.

(** The command line [-c c1 -c c2 ... script arg ...]. *)
Definition command_flags (commands : list string) : list string :=
  flat_map (fun c => ["-c"; c]) commands.

Lemma getopt_loop_commands (commands : list string) (script : string)
    (rest : list string) :
  Getopt.startswith script "-" = false ->
  forall turns opts,
    List.length commands <= turns ->
    Getopt.getopt_loop turns opts (command_flags commands ++ script :: rest)
      main_shortopts main_longopts =
      Some (inr (opts ++ map (fun c => ("-c", c)) commands, script :: rest)).
Proof.
  intros S. induction commands as [|c commands IH]; intros turns opts L.
  - cbn [command_flags flat_map app map]. rewrite app_nil_r.
    destruct turns; cbn [Getopt.getopt_loop]; now rewrite S.
  - destruct turns as [|turns]; [cbn in L; lia|].
    cbn [command_flags flat_map app map]. fold (command_flags commands).
    cbn [Getopt.getopt_loop].
    replace (Getopt.startswith "-c" "-" && negb ("-c" =? "-")%string) with true
      by reflexivity.
    replace ("-c" =? "--")%string with false by reflexivity.
    replace (Getopt.startswith "-c" "--") with false by reflexivity.
    replace (Getopt.drop 1 "-c") with "c"%string by reflexivity.
    unfold main_shortopts at 1. cbn [Getopt.do_shorts Getopt.short_has_arg].
    replace (Ascii.eqb "c" "h" && negb (Ascii.eqb "h" ":")) with false
      by reflexivity.
    replace (Ascii.eqb "c" "c" && negb (Ascii.eqb "c" ":")) with true
      by reflexivity.
    replace (Getopt.startswith ":" ":") with true by reflexivity.
    cbn [app]. rewrite IH by (cbn in L; lia).
    now rewrite <- app_assoc.
Qed.

(** X15. The commands given with -c come back as they are and in their
    order, whatever they contain (dashes, spaces, nothing at all), and the
    parsing stops at the script: what follows it, options included, is left
    for the script.  [main] seeds its debugger with exactly these commands. *)
Theorem X15_commands_round_trip (commands : list string) (script : string)
    (rest : list string) (w : World) :
  Getopt.startswith script "-" = false ->
  tl (sys_argv w) = command_flags commands ++ script :: rest ->
  parse w = inr (map (fun c => ("-c", c)) commands, script :: rest) /\
  commands_of (map (fun c => ("-c", c)) commands) = commands /\
  scan_opts (map (fun c => ("-c", c)) commands) [] w = (w, Ret commands).
Proof.
  intros S A.
  assert (P : parse w = inr (map (fun c => ("-c", c)) commands, script :: rest)).
  { unfold parse, Getopt.getopt. rewrite A.
    rewrite (getopt_loop_commands commands script rest S _ []); [reflexivity|].
    rewrite length_app. unfold command_flags.
    clear. induction commands as [|c commands IH]; cbn in *; lia. }
  assert (C : commands_of (map (fun c => ("-c", c)) commands) = commands).
  { clear. induction commands as [|c commands IH]; [reflexivity|].
    unfold commands_of in *. cbn. now rewrite IH. }
  assert (H : existsb is_help (map (fun c => ("-c", c)) commands) = false).
  { clear. induction commands as [|c commands IH]; [reflexivity|]. exact IH. }
  split; [exact P|]. split; [exact C|].
  rewrite (scan_opts_no_help _ [] w H). now rewrite C.
Qed.

(** ** The directory put at the head of the search path *)

Lemma head_to_last_sep_none (b : string) :
  contains "/" b = false -> Posixpath.head_to_last_sep b = None.
Proof.
  induction b as [|c b IH]; [reflexivity|]. cbn [contains Posixpath.head_to_last_sep].
  intros H. apply orb_false_iff in H. destruct H as [H1 H2].
  now rewrite (IH H2), H1.
Qed.

Lemma head_to_last_sep_app (p b : string) :
  contains "/" b = false ->
  Posixpath.head_to_last_sep (p ++ "/" ++ b) = Some (p ++ "/")%string.
Proof.
  intros H. induction p as [|c p IH].
  - cbn. now rewrite (head_to_last_sep_none b H).
  - cbn [append Posixpath.head_to_last_sep] in *. now rewrite IH.
Qed.

Lemma all_sep_app (a b : string) :
  Posixpath.all_sep (a ++ b) = Posixpath.all_sep a && Posixpath.all_sep b.
Proof.
  induction a as [|c a IH]; [reflexivity|]. cbn. now rewrite IH, andb_assoc.
Qed.

Lemma rstrip_sep_app_sep (s : string) :
  Posixpath.rstrip_sep (s ++ "/") = Posixpath.rstrip_sep s.
Proof.
  induction s as [|c s IH]; [reflexivity|].
  cbn [append Posixpath.rstrip_sep]. now rewrite IH.
Qed.

Lemma rstrip_sep_keeps (d : string) (c : ascii) :
  c <> "/"%char ->
  Posixpath.rstrip_sep (d ++ String c "") = (d ++ String c "")%string.
Proof.
  intros N. induction d as [|x d IH].
  - cbn. destruct (Ascii.eqb_spec c "/"); [contradiction|reflexivity].
  - cbn [append Posixpath.rstrip_sep]. rewrite IH. now destruct d.
Qed.

(** X16. For a script given as directory/name, the name without a slash
    and the directory not ending in one, the first entry of the search path
    becomes that directory as it is written; for a script given by its name
    alone it becomes the empty string.  The argument list is the script
    and its arguments in both cases. *)
Theorem X16_setup_script_directory (def_colors : string)
    (exec_lines : list string) (accepts_context : bool)
    (pdbrc_lines : list string) (engine_has_shell : bool)
    (d : string) (c : ascii) (name : string) (args commands : list string)
    (old : string) (others : list string) (w : World) :
  c <> "/"%char ->
  contains "/" name = false ->
  sys_path w = old :: others ->
  let dir := (d ++ String c "")%string in
  let setup_ := setup def_colors exec_lines accepts_context pdbrc_lines
                  engine_has_shell in
  sys_path (fst (setup_ args (dir ++ "/" ++ name)%string commands w)) =
    dir :: others /\
  sys_path (fst (setup_ args name commands w)) = "" :: others /\
  sys_argv (fst (setup_ args name commands w)) = args.
Proof.
  intros N H S. cbv zeta.
  assert (D1 : Posixpath.dirname ((d ++ String c "") ++ "/" ++ name) =
               (d ++ String c "")%string).
  { unfold Posixpath.dirname. rewrite (head_to_last_sep_app _ _ H).
    rewrite !all_sep_app. cbn [Posixpath.all_sep].
    destruct (Ascii.eqb_spec c "/"); [contradiction|].
    rewrite !andb_false_r. cbn [andb negb].
    replace ((((d ++ String c "") ++ "/") =? "")%string) with false
      by (destruct d; reflexivity).
    cbn [negb andb]. rewrite rstrip_sep_app_sep. now apply rstrip_sep_keeps. }
  assert (D2 : Posixpath.dirname name = ""%string).
  { unfold Posixpath.dirname. now rewrite (head_to_last_sep_none _ H). }
  unfold setup, bind, modify, set_sys_path_0. cbn [sys_path set_argv].
  rewrite S, D1, D2, !(_init_pdb_eq _ _ _ _ _ _ _ _ (constructs_3 _)).
  repeat split.
Qed.

(** ** From the command line into the loop *)

Section BeyondRun.

Variable def_colors : string.
Variable exec_lines : list string.
Variable accepts_context : bool.
Variable pdbrc_lines : list string.
Variable engine_has_shell : bool.

Local Abbreviation main_ :=
  (main def_colors exec_lines accepts_context pdbrc_lines engine_has_shell).

(** [main] with a script that exists and a search path that is not empty:
    the debugger is built once, then the loop runs in the world the setup
    has made. *)
Lemma main_into_loop (runs : list ScriptRun) (w : World) (opts : Getopt.Opts)
    (mainpyfile : string) (rest : list string) (old : string)
    (others : list string) :
  parse w = inr (opts, mainpyfile :: rest) ->
  existsb is_help opts = false ->
  existsb (String.eqb mainpyfile) (files w) = true ->
  sys_path w = old :: others ->
  main_ runs w =
    main_loop mainpyfile
      (mkPdb def_colors (built_context accepts_context 3)
             ((pdbrc_lines ++ def_exec_lines exec_lines) ++ commands_of opts)
             engine_has_shell)
      runs
      (add_log [Engine (sys_excepthook w) (New (built_context accepts_context 3))]
         (set_path (Posixpath.dirname mainpyfile :: others)
            (set_argv (mainpyfile :: rest) w))).
Proof.
  intros P H F S.
  rewrite (main_found_script _ _ _ _ _ runs w opts mainpyfile rest P H F).
  unfold bind at 1, setup, bind at 1, modify, bind at 1, set_sys_path_0.
  cbn [sys_path set_argv]. rewrite S.
  now rewrite (_init_pdb_eq _ _ _ _ _ _ _ _ (constructs_3 _)).
Qed.

(** X18. When the first execution of the script ends with the user's quit,
    [main] returns: the process ends with status 0, the script has been
    executed once, and the runner has printed nothing (no notice that the
    program finished or will be restarted). *)
Theorem X18_quit_ends_quietly (runs : list ScriptRun) (w : World)
    (opts : Getopt.Opts) (mainpyfile : string) (rest : list string)
    (old : string) (others : list string) :
  parse w = inr (opts, mainpyfile :: rest) ->
  existsb is_help opts = false ->
  existsb (String.eqb mainpyfile) (files w) = true ->
  sys_path w = old :: others ->
  let r := main_ (Completed true :: runs) w in
  snd r = Ret tt /\
  exit_status (snd r) = Some 0%Z /\
  log (fst r) =
    log w ++ [Engine (sys_excepthook w)
                (New (if accepts_context then Some 3%Z else None));
              Engine (sys_excepthook w) (Runscript mainpyfile)].
Proof.
  intros P H F S. cbv zeta.
  rewrite (main_into_loop (Completed true :: runs) w opts mainpyfile rest old
             others P H F S).
  rewrite main_loop_cons. cbn [turn_ctl fst snd exit_status].
  split; [reflexivity|]. split; [reflexivity|].
  cbn [add_log log sys_excepthook turn_events set_path set_argv].
  unfold built_context. now rewrite <- app_assoc.
Qed.

End BeyondRun.

(** ** Concrete runs, beyond the claims *)

Definition import_error (module : string) : Exn :=
  mkExn (OtherException "ModuleNotFoundError")
        ("ModuleNotFoundError(" ++ dq ++ "No module named '" ++ module ++ "'" ++
         dq ++ ")")%string
        ("No module named '" ++ module ++ "'")%string 0.

(** An old IPython: the application is under IPython.frontend only. *)
Definition old_ipython (module needed_module : string) : Exn + string :=
  if String.eqb module "IPython.frontend.terminal.ipapp"
  then inr "<module 'IPython.frontend.terminal.ipapp'>"
  else inl (import_error module).

(** No IPython at all. *)
Definition no_ipython (module needed_module : string) : Exn + string :=
  inl (import_error module).

Lemma X1_witness :
  Forall (not_importable string old_ipython "TerminalIPythonApp")
         ["IPython.terminal.ipapp"] /\
  import_module string old_ipython
    ["IPython.terminal.ipapp"; "IPython.frontend.terminal.ipapp"]
    "TerminalIPythonApp" fresh =
    (fresh, Ret (Some "<module 'IPython.frontend.terminal.ipapp'>")).
Proof.
  assert (F : Forall (not_importable string old_ipython "TerminalIPythonApp")
                     ["IPython.terminal.ipapp"]).
  { constructor; [|constructor]. eexists. split; reflexivity. }
  split; [exact F|].
  exact (X1_import_module_first string old_ipython ["IPython.terminal.ipapp"]
           "IPython.frontend.terminal.ipapp" [] "TerminalIPythonApp" fresh F).
Defined.

Lemma X2_witness :
  Forall (not_importable string no_ipython "TerminalIPythonApp")
         ["IPython.terminal.ipapp"] /\
  no_ipython "IPython.frontend.terminal.ipapp" "TerminalIPythonApp" =
    inl (import_error "IPython.frontend.terminal.ipapp") /\
  is_ImportError (exc_class (import_error "IPython.frontend.terminal.ipapp")) = true /\
  import_module string no_ipython
    ["IPython.terminal.ipapp"; "IPython.frontend.terminal.ipapp"]
    "TerminalIPythonApp" fresh =
    (fresh, Raise (import_error "IPython.frontend.terminal.ipapp")).
Proof.
  assert (F : Forall (not_importable string no_ipython "TerminalIPythonApp")
                     ["IPython.terminal.ipapp"]).
  { constructor; [|constructor]. eexists. split; reflexivity. }
  split; [exact F|]. split; [reflexivity|]. split; [reflexivity|].
  exact (proj1 (X2_import_module_none string no_ipython ["IPython.terminal.ipapp"]
                  "IPython.frontend.terminal.ipapp" "TerminalIPythonApp"
                  (import_error "IPython.frontend.terminal.ipapp") fresh F
                  eq_refl eq_refl)).
Defined.

Lemma X4_witness :
  let w := set_exc_info (Some value_error_x) fresh in
  exc_info w = Some value_error_x /\
  post_mortem "Linux" demo_exec_lines true demo_pdbrc true None w =
    post_mortem "Linux" demo_exec_lines true demo_pdbrc true (Some 13) w /\
  sessions (log (fst (post_mortem "Linux" demo_exec_lines true demo_pdbrc true
                        None w))) = 1.
Proof.
  cbv zeta.
  assert (H : exc_info (set_exc_info (Some value_error_x) fresh) =
              Some value_error_x) by reflexivity.
  destruct (X4_post_mortem_handled_exception "Linux" demo_exec_lines true
              demo_pdbrc true value_error_x _ H) as (A & _ & _ & B).
  split; [exact H|]. split; [exact A|exact B].
Defined.

Lemma X5_witness :
  let cs := [CallPm; CallSetTrace None 3; CallPostMortem None;
             CallSetTrace None 0] in
  let w' := after_calls "Linux" demo_exec_lines true demo_pdbrc true
              (OtherHook 5) cs fresh in
  guard_sound fresh /\
  guard_sound w' /\
  sys_excepthook w' = BdbQuit_excepthook /\
  excepthook_ori w' = Some (OtherHook 5).
Proof.
  cbv zeta.
  assert (S : guard_sound fresh) by (split; discriminate).
  destruct (X5_entry_points_keep_guard_sound "Linux" demo_exec_lines true
              demo_pdbrc true (OtherHook 5)
              [CallPm; CallSetTrace None 3; CallPostMortem None;
               CallSetTrace None 0] fresh S) as (A & _).
  split; [exact S|]. split; [exact A|]. split; reflexivity.
Defined.


Lemma X11_witness :
  let w := with_argv ["/site/ipdb/__main__.py"; "-c"; "continue"] in
  parse w = inr ([("-c", "continue")], []) /\
  exit_status (snd (main "Linux" demo_exec_lines true demo_pdbrc true [] w)) =
    Some 2%Z.
Proof.
  cbv zeta.
  assert (P : parse (with_argv ["/site/ipdb/__main__.py"; "-c"; "continue"]) =
              inr ([("-c", "continue")], [])) by reflexivity.
  split; [exact P|].
  exact (proj2 (X11_main_without_script "Linux" demo_exec_lines true demo_pdbrc
                  true [] _ _ P)).
Defined.

Lemma X12_witness :
  let w := with_argv ["/site/ipdb/__main__.py"; "nofile.py"; "a"] in
  let r := main "Linux" demo_exec_lines true demo_pdbrc true [] w in
  parse w = inr ([], ["nofile.py"; "a"]) /\
  existsb (String.eqb "nofile.py") (files w) = false /\
  written stdout (log (fst r)) = [("Error: nofile.py does not exist" ++ nl)%string] /\
  exit_status (snd r) = Some 1%Z.
Proof.
  cbv zeta.
  assert (P : parse (with_argv ["/site/ipdb/__main__.py"; "nofile.py"; "a"]) =
              inr ([], ["nofile.py"; "a"])) by reflexivity.
  assert (F : existsb (String.eqb "nofile.py")
                (files (with_argv ["/site/ipdb/__main__.py"; "nofile.py"; "a"])) =
              false) by reflexivity.
  destruct (X12_main_missing_script "Linux" demo_exec_lines true demo_pdbrc
              true [] _ _ _ _ P eq_refl F) as (A & B & _).
  split; [exact P|]. split; [exact F|]. split; [exact A|exact B].
Defined.

Lemma X13_witness :
  let w := with_argv ["/site/ipdb/__main__.py"; "-c"; "continue"; "-h";
                      "----help"; "----command=next"; "dir/s.py"] in
  let opts := [("-c", "continue"); ("-h", ""); ("----help", "");
               ("----command", "next")] in
  parse w = inr (opts, ["dir/s.py"]) /\
  Forall known_option opts.
Proof.
  cbv zeta.
  assert (P : parse (with_argv ["/site/ipdb/__main__.py"; "-c"; "continue"; "-h";
                                "----help"; "----command=next"; "dir/s.py"]) =
              inr ([("-c", "continue"); ("-h", ""); ("----help", "");
                    ("----command", "next")], ["dir/s.py"])) by reflexivity.
  split; [exact P|].
  exact (proj1 (X13_parsed_option_names _ _ _ P)).
Defined.

Lemma X14_witness :
  let w := with_argv ["/site/ipdb/__main__.py"; "--help"; "dir/s.py"] in
  sys_argv w = "/site/ipdb/__main__.py" :: ("--" ++ String "h" "elp")%string ::
               ["dir/s.py"] /\
  parse w = inl ("option --help not recognized", "help") /\
  exit_status (snd (main "Linux" demo_exec_lines true demo_pdbrc true [] w)) =
    Some 1%Z.
Proof.
  cbv zeta.
  assert (A : sys_argv (with_argv ["/site/ipdb/__main__.py"; "--help"; "dir/s.py"]) =
              "/site/ipdb/__main__.py" :: ("--" ++ String "h" "elp")%string ::
              ["dir/s.py"]) by reflexivity.
  assert (N : "h"%char <> "-"%char) by discriminate.
  destruct (X14_long_options_rejected "Linux" demo_exec_lines true demo_pdbrc
              true [] _ _ _ _ _ A N) as (P & _ & _ & E).
  split; [exact A|]. split; [exact P|exact E].
Defined.

Lemma X15_witness :
  Getopt.startswith "dir/s.py" "-" = false /\
  tl (sys_argv fresh) = command_flags ["continue"] ++ "dir/s.py" :: ["a"] /\
  parse fresh = inr ([("-c", "continue")], ["dir/s.py"; "a"]) /\
  scan_opts [("-c", "continue")] [] fresh = (fresh, Ret ["continue"]).
Proof.
  assert (S : Getopt.startswith "dir/s.py" "-" = false) by reflexivity.
  assert (A : tl (sys_argv fresh) =
              command_flags ["continue"] ++ "dir/s.py" :: ["a"]) by reflexivity.
  destruct (X15_commands_round_trip ["continue"] "dir/s.py" ["a"] fresh S A)
    as (P & _ & C).
  split; [exact S|]. split; [exact A|]. split; [exact P|exact C].
Defined.

Lemma X16_witness :
  "r"%char <> "/"%char /\
  contains "/" "s.py" = false /\
  sys_path fresh = "/site/ipdb" :: ["/usr/lib/python3"] /\
  sys_path (fst (setup "Linux" demo_exec_lines true demo_pdbrc true
                   ["dir/s.py"; "a"] "dir/s.py" ["continue"] fresh)) =
    ["dir"; "/usr/lib/python3"] /\
  sys_path (fst (setup "Linux" demo_exec_lines true demo_pdbrc true
                   ["s.py"] "s.py" [] fresh)) =
    [""; "/usr/lib/python3"].
Proof.
  assert (N : "r"%char <> "/"%char) by discriminate.
  assert (H : contains "/" "s.py" = false) by reflexivity.
  assert (S : sys_path fresh = "/site/ipdb" :: ["/usr/lib/python3"]) by reflexivity.
  split; [exact N|]. split; [exact H|]. split; [exact S|]. split.
  - exact (proj1 (X16_setup_script_directory "Linux" demo_exec_lines true
                    demo_pdbrc true "di" "r" "s.py" ["dir/s.py"; "a"]
                    ["continue"] _ _ fresh N H S)).
  - exact (proj1 (proj2 (X16_setup_script_directory "Linux" demo_exec_lines true
                           demo_pdbrc true "di" "r" "s.py" ["s.py"] [] _ _ fresh
                           N H S))).
Defined.

Lemma X18_witness :
  parse fresh = inr ([("-c", "continue")], ["dir/s.py"; "a"]) /\
  existsb (String.eqb "dir/s.py") (files fresh) = true /\
  let r := main "Linux" demo_exec_lines true demo_pdbrc true [Completed true]
             fresh in
  snd r = Ret tt /\
  exit_status (snd r) = Some 0%Z /\
  written stdout (log (fst r)) = [].
Proof.
  assert (P : parse fresh = inr ([("-c", "continue")], ["dir/s.py"; "a"]))
    by reflexivity.
  assert (F : existsb (String.eqb "dir/s.py") (files fresh) = true) by reflexivity.
  destruct (X18_quit_ends_quietly "Linux" demo_exec_lines true demo_pdbrc true
              [] fresh _ _ _ "/site/ipdb" ["/usr/lib/python3"]
              P eq_refl F eq_refl) as (A & B & C).
  split; [exact P|]. split; [exact F|]. cbv zeta.
  split; [exact A|]. split; [exact B|]. rewrite C. reflexivity.
Defined.
